(** * Form components of the aptitude-Q front-end: a shallow embedding

    The development follows the TypeScript sources:
    - [packages/ui/src/input.tsx]: the [Input] component and its demo page,
    - the [Button] component,
    - the [PasswordInput] component, its strength estimator and demo page,
    - [apps/web/app/(auth)/sign-in/page.tsx]: the [Signin] and [Signup] pages.

    JavaScript strings are sequences of UTF-16 code units; a code unit is
    modelled as an [N].  Objects used as string-keyed dictionaries
    ([Record<string, string>], the form data) are [gmap string _]. *)

From Stdlib Require Import NArith ZArith List Bool Lia String Ascii.
From stdpp Require Import base option list strings gmap.

Local Open Scope N_scope.

(** ** JavaScript strings *)

Module JsString.

(** A string literal of the source (ASCII) as a sequence of code units. *)
Definition js (s : string) : list N :=
  map N_of_ascii (list_ascii_of_string s).

(** ECMAScript [WhiteSpace] code points (all of them in the BMP). *)
Definition isWhiteSpace (c : N) : bool :=
  (c =? 0x9) || (c =? 0xB) || (c =? 0xC) || (c =? 0x20) || (c =? 0xA0)
  || (c =? 0x1680) || ((0x2000 <=? c) && (c <=? 0x200A))
  || (c =? 0x202F) || (c =? 0x205F) || (c =? 0x3000) || (c =? 0xFEFF).

(** ECMAScript [LineTerminator] code points. *)
Definition isLineTerminator (c : N) : bool :=
  (c =? 0xA) || (c =? 0xD) || (c =? 0x2028) || (c =? 0x2029).

(** The class [\s]; it is also what [String.prototype.trim] strips. *)
Definition is_space (c : N) : bool := isWhiteSpace c || isLineTerminator c.

(** The class [\S]. *)
Definition non_space (c : N) : bool := negb (is_space c).

Fixpoint trimStart (s : list N) : list N :=
  match s with
  | c :: s' => if is_space c then trimStart s' else s
  | [] => []
  end.

Definition trimEnd (s : list N) : list N := rev (trimStart (rev s)).

(** [s.trim()] *)
Definition trim (s : list N) : list N := trimEnd (trimStart s).

(** Truthiness of a string value: only the empty string is falsy. *)
Definition nonempty (s : list N) : bool :=
  match s with [] => false | _ :: _ => true end.

(** Truthiness of [o[k]] for a dictionary of strings: [undefined] and the
    empty string are falsy. *)
Definition truthy (v : option (list N)) : bool :=
  match v with Some s => nonempty s | None => false end.

(** [s.replace(/\s+/g, ' ')]: every maximal run of white space becomes one
    space character. *)
Fixpoint collapse_from (in_run : bool) (s : list N) : list N :=
  match s with
  | [] => []
  | c :: s' =>
      if is_space c
      then (if in_run then collapse_from true s'
            else 0x20 :: collapse_from true s')
      else c :: collapse_from false s'
  end.

Definition collapse_spaces (s : list N) : list N := collapse_from false s.

(** [a === b] on strings. *)
Fixpoint streq (a b : list N) : bool :=
  match a, b with
  | [], [] => true
  | x :: a', y :: b' => (x =? y) && streq a' b'
  | _, _ => false
  end.

End JsString.

(** ** The regular expressions of the source

    The fragment of ECMAScript patterns that the source uses: character
    classes, [*] and [+] applied to a character class, concatenation and
    positive lookahead.  The matcher is a backtracking matcher in
    continuation-passing style, as the ECMAScript semantics is. *)

Module Regex.
Import JsString.

Inductive regex : Type :=
| Atom (p : N -> bool)          (* one code unit of a class *)
| Star (p : N -> bool)          (* [p*], greedy *)
| Plus (p : N -> bool)          (* [p+], greedy *)
| Cat (r1 r2 : regex)           (* concatenation *)
| Look (r : regex).             (* [(?=r)] *)

Fixpoint star_k (p : N -> bool) (k : list N -> bool) (s : list N) : bool :=
  match s with
  | c :: s' => (p c && star_k p k s') || k s
  | [] => k s
  end.

(** [rmatch r s k]: [r] matches a prefix of [s] and the continuation [k]
    accepts what is left. *)
Fixpoint rmatch (r : regex) (s : list N) (k : list N -> bool) : bool :=
  match r with
  | Atom p => match s with c :: s' => p c && k s' | [] => false end
  | Star p => star_k p k s
  | Plus p => match s with c :: s' => p c && star_k p k s' | [] => false end
  | Cat r1 r2 => rmatch r1 s (fun s' => rmatch r2 s' k)
  | Look r0 => rmatch r0 s (fun _ => true) && k s
  end.

(** [r.test(s)] for a pattern without flags: a match is tried at every
    start index, from [0] to [s.length]. *)
Fixpoint test (r : regex) (s : list N) : bool :=
  rmatch r s (fun _ => true)
  || match s with [] => false | _ :: s' => test r s' end.

(** What a match is: [matches r s s'] when [r] matches the prefix of [s]
    that leaves [s']. *)
Inductive matches : regex -> list N -> list N -> Prop :=
| m_atom p c s : p c = true -> matches (Atom p) (c :: s) s
| m_star_stop p s : matches (Star p) s s
| m_star_step p c s s' :
    p c = true -> matches (Star p) s s' -> matches (Star p) (c :: s) s'
| m_plus p c s s' :
    p c = true -> matches (Star p) s s' -> matches (Plus p) (c :: s) s'
| m_cat r1 r2 s s1 s2 :
    matches r1 s s1 -> matches r2 s1 s2 -> matches (Cat r1 r2) s s2
| m_look r s s' : matches r s s' -> matches (Look r) s s.

(** Character classes of the source's patterns. *)
Definition chr (a : ascii) (c : N) : bool := c =? N_of_ascii a.
Definition in_range (lo hi : ascii) (c : N) : bool :=
  (N_of_ascii lo <=? c) && (c <=? N_of_ascii hi).
Definition lower (c : N) : bool := in_range "a" "z" c.          (* [a-z] *)
Definition upper (c : N) : bool := in_range "A" "Z" c.          (* [A-Z] *)
Definition digit (c : N) : bool := in_range "0" "9" c.          (* [0-9], \d *)
Definition symbol (c : N) : bool :=                             (* [^A-Za-z0-9] *)
  negb (upper c || lower c || digit c).
Definition dot (c : N) : bool := negb (isLineTerminator c).     (* . *)

(** [/\S+@\S+\.\S+/] *)
Definition email_re : regex :=
  Cat (Plus non_space)
    (Cat (Atom (chr "@"))
       (Cat (Plus non_space)
          (Cat (Atom (chr ".")) (Plus non_space)))).

(** [/(?=.*[a-z])(?=.*[A-Z])(?=.*\d)/] *)
Definition mixed_re : regex :=
  Cat (Look (Cat (Star dot) (Atom lower)))
    (Cat (Look (Cat (Star dot) (Atom upper)))
       (Look (Cat (Star dot) (Atom digit)))).

End Regex.

(** ** Opaque collaborators

    Renderable content ([ReactNode]), caller-supplied callbacks and DOM
    events are references the components only pass around.  Calling a
    callback is recorded as an entry of the handler's trace. *)

Inductive Node : Type := NodeRef (id : N).
Inductive Callback : Type := CallbackRef (id : N).
Inductive Event : Type := EventRef (id : N).

Inductive Call : Type :=
| CallWith (cb : Callback) (e : Event).    (* [cb(e)] *)

(** [cb?.(e)], and a listener attribute [onClick={cb}] receiving [e] *)
Definition call_opt (cb : option Callback) (e : Event) : list Call :=
  match cb with Some f => [CallWith f e] | None => [] end.

(** Values of HTML attributes and of the other properties a caller may
    pass: strings, numbers, booleans and listeners. *)
Inductive AttrValue : Type :=
| VString (s : list N)
| VNumber (z : Z)
| VBool (b : bool)
| VHandler (cb : Callback).

(** Truthiness of an optional renderable slot. *)
Definition present {A : Type} (o : option A) : bool :=
  match o with Some _ => true | None => false end.

(** ** The [Input] component ([packages/ui/src/input.tsx]) *)

Module Input.
Import JsString.

Inductive InputVariant : Type := Default | Filled | Outline | Underline | Gradient.
Inductive InputSize : Type := Xs | Sm | Md | Lg | Xl.
Inductive InputType : Type :=
| Text | Email | Password | Number | Tel | Url | Search | Textarea.

Definition InputType_eqb (a b : InputType) : bool :=
  match a, b with
  | Text, Text | Email, Email | Password, Password | Number, Number
  | Tel, Tel | Url, Url | Search, Search | Textarea, Textarea => true
  | _, _ => false
  end.

(** The props object, as the component destructures it.  Optional
    properties are [option]s; the defaults of the destructuring pattern are
    applied by the component.  [rest] is the object of the remaining
    properties: [value], [onChange], [onFocus], [onBlur], the [rows] and
    [resize] of [TextareaProps], and any other HTML attribute. *)
Record InputProps : Type := {
  variant : option InputVariant;
  size : option InputSize;
  label : option (list N);
  placeholder : option (list N);
  helperText : option (list N);
  error : option (list N);
  disabled : option bool;
  required : option bool;
  fullWidth : option bool;
  leftIcon : option Node;
  rightIcon : option Node;
  className : option (list N);
  onLeftIconClick : option Callback;
  onRightIconClick : option Callback;
  type : InputType;
  rest : gmap string AttrValue
}.

(** Typed reads of [rest]; the property types exclude values of another
    sort, which are read as [undefined] here. *)
Definition onFocus (props : InputProps) : option Callback :=
  match rest props !! "onFocus" with Some (VHandler cb) => Some cb | _ => None end.

Definition onBlur (props : InputProps) : option Callback :=
  match rest props !! "onBlur" with Some (VHandler cb) => Some cb | _ => None end.

Definition rows (props : InputProps) : option Z :=
  match rest props !! "rows" with Some (VNumber z) => Some z | _ => None end.

Definition resize (props : InputProps) : option bool :=
  match rest props !! "resize" with Some (VBool b) => Some b | _ => None end.

(** The two [useState] cells of the component. *)
Record InteractionState : Type := {
  showPassword : bool;
  isFocused : bool
}.

Definition initial : InteractionState :=
  {| showPassword := false; isFocused := false |}.

Definition isTextareaProps (props : InputProps) : bool :=
  InputType_eqb (type props) Textarea.

Definition togglePasswordVisibility (st : InteractionState) : InteractionState :=
  {| showPassword := negb (showPassword st); isFocused := isFocused st |}.

Definition baseStyles : list N :=
  js "transition-all duration-200 focus:outline-none text-black placeholder-gray-400 disabled:opacity-50 disabled:cursor-not-allowed".

Definition variants (v : InputVariant) : list N :=
  match v with
  | Default => js "border border-gray-300 bg-white focus:border-indigo-500 focus:ring-2 focus:ring-indigo-200"
  | Filled => js "border-0 bg-gray-100 focus:bg-white focus:ring-2 focus:ring-indigo-500"
  | Outline => js "border-2 border-gray-300 bg-transparent focus:border-indigo-500 focus:ring-2 focus:ring-indigo-200"
  | Underline => js "border-0 border-b-2 border-gray-300 bg-transparent rounded-none focus:border-indigo-500 focus:ring-0"
  | Gradient => js "border-2 border-transparent bg-gradient-to-r from-indigo-50 to-purple-50 focus:from-indigo-100 focus:to-purple-100 focus:border-gradient-to-r focus:border-indigo-500 focus:ring-2 focus:ring-indigo-200"
  end.

Definition sizes (s : InputSize) : list N :=
  match s with
  | Xs => js "px-2 py-1 text-xs rounded"
  | Sm => js "px-3 py-1.5 text-sm rounded-md"
  | Md => js "px-4 py-2 text-sm rounded-lg"
  | Lg => js "px-6 py-3 text-base rounded-lg"
  | Xl => js "px-8 py-4 text-lg rounded-xl"
  end.

(** [type === 'password' && showPassword ? 'text' : type] *)
Definition actualType (props : InputProps) (st : InteractionState) : InputType :=
  if InputType_eqb (type props) Password && showPassword st then Text
  else type props.

Definition handleFocus (props : InputProps) (e : Event) (st : InteractionState)
  : InteractionState * list Call :=
  ({| showPassword := showPassword st; isFocused := true |},
   if isTextareaProps props then call_opt (onFocus props) e
   else call_opt (onFocus props) e).

Definition handleBlur (props : InputProps) (e : Event) (st : InteractionState)
  : InteractionState * list Call :=
  ({| showPassword := showPassword st; isFocused := false |},
   if isTextareaProps props then call_opt (onBlur props) e
   else call_opt (onBlur props) e).

(** The line break and indentation between the parts of the template
    literal, and the one before its closing back quote. *)
Definition sep : list N := [0xA; 0x20; 0x20; 0x20; 0x20].
Definition last_sep : list N := [0xA; 0x20; 0x20].

Definition inputClasses (props : InputProps) : list N :=
  collapse_spaces (trim (
    sep ++ baseStyles ++
    sep ++ variants (default Default (variant props)) ++
    sep ++ sizes (default Md (size props)) ++
    sep ++ (if default false (fullWidth props) then js "w-full" else []) ++
    sep ++ (if truthy (error props)
            then js "border-red-500 focus:border-red-500 focus:ring-red-200" else []) ++
    sep ++ (if present (leftIcon props) then js "pl-10" else []) ++
    sep ++ (if present (rightIcon props) || InputType_eqb (type props) Password
            then js "pr-10" else []) ++
    sep ++ default [] (className props) ++ last_sep)).

(** What [renderInput] returns: a [<textarea>] or an [<input>] element with
    the attributes the component sets, followed by the spread ones. *)
Inductive Control : Type :=
| TextareaEl (cls : list N) (ph : option (list N)) (dis req : bool)
    (nrows : Z) (spread : gmap string AttrValue)
| InputEl (ty : InputType) (cls : list N) (ph : option (list N))
    (dis req : bool) (spread : gmap string AttrValue).

Definition renderInput (props : InputProps) (st : InteractionState) : Control :=
  if isTextareaProps props then
    let rows := default 3%Z (rows props) in
    let resize := default true (resize props) in
    TextareaEl
      (inputClasses props ++ js " " ++
         (if negb resize then js "resize-none" else js "resize-y"))
      (placeholder props)
      (default false (disabled props))
      (default false (required props))
      rows
      (delete "rows" (delete "resize" (rest props)))
  else
    InputEl
      (actualType props st)
      (inputClasses props)
      (placeholder props)
      (default false (disabled props))
      (default false (required props))
      (filter (fun kv => fst kv <> "type") (rest props)).

(** The trailing slot is rendered when [rightIcon || type === 'password'];
    its content is the eye icon for a password field. *)
Inductive RightSlot : Type :=
| EyeIcon (isOpen : bool)
| Decoration (n : Node).

Definition rightSlot (props : InputProps) (st : InteractionState) : option RightSlot :=
  if InputType_eqb (type props) Password then Some (EyeIcon (showPassword st))
  else match rightIcon props with
       | Some n => Some (Decoration n)
       | None => None
       end.

(** A click on the trailing slot:
    [onClick={type === 'password' ? togglePasswordVisibility : onRightIconClick}] *)
Definition rightSlotClick (props : InputProps) (e : Event) (st : InteractionState)
  : InteractionState * list Call :=
  if InputType_eqb (type props) Password then (togglePasswordVisibility st, [])
  else (st, call_opt (onRightIconClick props) e).

(** Label styles based on size *)
Definition labelSizes (s : InputSize) : list N :=
  match s with
  | Xs => js "text-xs"
  | Sm => js "text-sm"
  | Md => js "text-sm"
  | Lg => js "text-base"
  | Xl => js "text-lg"
  end.

(** Helper text styles based on size *)
Definition helperSizes (s : InputSize) : list N :=
  match s with
  | Xs => js "text-xs"
  | Sm => js "text-xs"
  | Md => js "text-sm"
  | Lg => js "text-sm"
  | Xl => js "text-base"
  end.

(** [label && <label className=...>{label}{required && <span>*</span>}</label>] *)
Record LabelEl : Type := {
  label_className : list N;
  label_text : list N;
  label_star : bool
}.

Definition renderLabel (props : InputProps) : option LabelEl :=
  if truthy (label props) then
    Some {| label_className :=
              js "block font-medium text-gray-700 mb-1 "
              ++ labelSizes (default Md (size props)) ++ js " "
              ++ (if truthy (error props) then js "text-red-700" else []);
            label_text := default [] (label props);
            label_star := default false (required props) |}
  else None.

(** [leftIcon && <div className=... onClick={onLeftIconClick}>{leftIcon}</div>] *)
Record LeftSlot : Type := {
  left_className : list N;
  left_onClick : option Callback;
  left_icon : Node
}.

Definition renderLeft (props : InputProps) : option LeftSlot :=
  match leftIcon props with
  | Some icon =>
      Some {| left_className :=
                js "absolute left-3 top-1/2 transform -translate-y-1/2 text-gray-400 "
                ++ (if present (onLeftIconClick props)
                    then js "cursor-pointer hover:text-gray-600" else []);
              left_onClick := onLeftIconClick props;
              left_icon := icon |}
  | None => None
  end.

(** A click on the leading slot. *)
Definition leftSlotClick (props : InputProps) (e : Event) : list Call :=
  call_opt (onLeftIconClick props) e.

(** The class of the trailing slot. *)
Definition rightSlotClass (props : InputProps) : list N :=
  js "absolute right-3 top-1/2 transform -translate-y-1/2 text-gray-400 "
  ++ (if present (onRightIconClick props) || InputType_eqb (type props) Password
      then js "cursor-pointer hover:text-gray-600" else []).

(** [(helperText || error) && <p className=...>{error || helperText}</p>] *)
Record HelperEl : Type := {
  helper_className : list N;
  helper_text : list N
}.

Definition renderHelper (props : InputProps) : option HelperEl :=
  if truthy (helperText props) || truthy (error props) then
    Some {| helper_className :=
              js "mt-1 " ++ helperSizes (default Md (size props)) ++ js " "
              ++ (if truthy (error props) then js "text-red-600"
                  else js "text-gray-500");
            helper_text :=
              if truthy (error props) then default [] (error props)
              else default [] (helperText props) |}
  else None.

(** What the component returns: the wrapper with the label, the leading
    slot, the control, the trailing slot and the helper line. *)
Record View : Type := {
  view_className : list N;
  view_label : option LabelEl;
  view_left : option LeftSlot;
  view_control : Control;
  view_right : option (list N * RightSlot);
  view_helper : option HelperEl
}.

Definition render (props : InputProps) (st : InteractionState) : View :=
  {| view_className := if default false (fullWidth props) then js "w-full" else [];
     view_label := renderLabel props;
     view_left := renderLeft props;
     view_control := renderInput props st;
     view_right :=
       match rightSlot props st with
       | Some content => Some (rightSlotClass props, content)
       | None => None
       end;
     view_helper := renderHelper props |}.

End Input.

(** ** The [Button] component *)

Module Button.
Import JsString.

Inductive ButtonVariant : Type :=
| Primary | Secondary | Success | Danger | Warning | Info | Outline | Ghost | Link.
Inductive ButtonSize : Type := Xs | Sm | Md | Lg | Xl.
Inductive ButtonType : Type := TButton | TSubmit | TReset.

Record ButtonProps : Type := {
  children : Node;
  variant : option ButtonVariant;
  size : option ButtonSize;
  disabled : option bool;
  loading : option bool;
  fullWidth : option bool;
  leftIcon : option Node;
  rightIcon : option Node;
  onClick : option Callback;
  type : option ButtonType;
  className : option (list N);
  rest : gmap string AttrValue      (* the other button attributes *)
}.

Definition baseStyles : list N :=
  js "inline-flex items-center justify-center font-medium transition-all duration-200 focus:outline-none focus:ring-2 focus:ring-offset-2 disabled:opacity-50 disabled:cursor-not-allowed".

Definition variants (v : ButtonVariant) : list N :=
  match v with
  | Primary => js "bg-gradient-to-r from-indigo-600 to-purple-600 text-white hover:shadow-lg hover:from-indigo-700 hover:to-purple-700 focus:ring-indigo-500 active:from-indigo-800 active:to-purple-800"
  | Secondary => js "bg-gray-600 text-white hover:bg-gray-700 focus:ring-gray-500 active:bg-gray-800"
  | Success => js "bg-green-600 text-white hover:bg-green-700 focus:ring-green-500 active:bg-green-800"
  | Danger => js "bg-red-600 text-white hover:bg-red-700 focus:ring-red-500 active:bg-red-800"
  | Warning => js "bg-yellow-600 text-white hover:bg-yellow-700 focus:ring-yellow-500 active:bg-yellow-800"
  | Info => js "bg-cyan-600 text-white hover:bg-cyan-700 focus:ring-cyan-500 active:bg-cyan-800"
  | Outline => js "border-2 border-indigo-600 text-indigo-600 bg-transparent hover:bg-indigo-50 focus:ring-indigo-500 active:bg-indigo-100"
  | Ghost => js "text-indigo-600 bg-transparent hover:bg-indigo-50 focus:ring-indigo-500 active:bg-indigo-100"
  | Link => js "text-indigo-600 bg-transparent hover:underline focus:ring-indigo-500 p-0 h-auto"
  end.

Definition sizes (s : ButtonSize) : list N :=
  match s with
  | Xs => js "px-2 py-1 text-xs rounded-full"
  | Sm => js "px-3 py-1.5 text-sm rounded-full"
  | Md => js "px-6 py-3 text-sm rounded-full"
  | Lg => js "px-8 py-4 text-base rounded-full"
  | Xl => js "px-10 py-5 text-lg rounded-full"
  end.

(** [if (!disabled && !loading && onClick) onClick(event)] *)
Definition handleClick (props : ButtonProps) (event : Event) : list Call :=
  if negb (default false (disabled props))
     && negb (default false (loading props))
     && present (onClick props)
  then call_opt (onClick props) event
  else [].

Definition buttonClasses (props : ButtonProps) : list N :=
  collapse_spaces (trim (
    Input.sep ++ baseStyles ++
    Input.sep ++ variants (default Primary (variant props)) ++
    Input.sep ++ sizes (default Md (size props)) ++
    Input.sep ++ (if default false (fullWidth props) then js "w-full" else []) ++
    Input.sep ++ default [] (className props) ++ Input.last_sep)).

(** The children of the rendered [<button>], in order. *)
Inductive Child : Type :=
| LoadingSpinner
| LeftIconSpan (n : Node)
| Content (n : Node)
| RightIconSpan (n : Node).

Definition when {A : Type} (b : bool) (l : list A) : list A :=
  if b then l else [].

(** The rendered [<button>]; its click listener is [handleClick]. *)
Record ButtonEl : Type := {
  el_type : ButtonType;
  el_className : list N;
  el_disabled : bool;
  el_spread : gmap string AttrValue;
  el_children : list Child
}.

Definition render (props : ButtonProps) : ButtonEl :=
  let loading := default false (loading props) in
  {| el_type := default TButton (type props);
     el_className := buttonClasses props;
     el_disabled := default false (disabled props) || loading;
     el_spread := rest props;
     el_children :=
       when loading [LoadingSpinner] ++
       when (negb loading)
         (match leftIcon props with Some i => [LeftIconSpan i] | None => [] end) ++
       [Content (children props)] ++
       when (negb loading)
         (match rightIcon props with Some i => [RightIconSpan i] | None => [] end) |}.

End Button.

(** ** The [PasswordInput] component and the strength estimator *)

Module PasswordInput.
Import JsString Regex.

Record Strength : Type := {
  score : Z;
  label : list N;
  color : list N
}.

Definition calculatePasswordStrength (password : list N) : Strength :=
  if negb (nonempty password) then {| score := 0; label := []; color := [] |}
  else
    let score := 0%Z in
    (* Length check *)
    let score := if (8 <=? length password)%nat then (score + 25)%Z else score in
    let score := if (12 <=? length password)%nat then (score + 10)%Z else score in
    (* Character variety checks *)
    let score := if test (Atom lower) password then (score + 15)%Z else score in
    let score := if test (Atom upper) password then (score + 15)%Z else score in
    let score := if test (Atom digit) password then (score + 15)%Z else score in
    let score := if test (Atom symbol) password then (score + 20)%Z else score in
    (* Determine strength label and color *)
    if (score <? 30)%Z then {| score := score; label := js "Weak"; color := js "bg-red-500" |}
    else if (score <? 60)%Z then {| score := score; label := js "Fair"; color := js "bg-yellow-500" |}
    else if (score <? 80)%Z then {| score := score; label := js "Good"; color := js "bg-blue-500" |}
    else {| score := score; label := js "Strong"; color := js "bg-green-500" |}.

Record InteractionState : Type := {
  showPassword : bool;
  isFocused : bool
}.

Definition initial : InteractionState :=
  {| showPassword := false; isFocused := false |}.

Definition togglePasswordVisibility (st : InteractionState) : InteractionState :=
  {| showPassword := negb (showPassword st); isFocused := isFocused st |}.

(** The [type] attribute of the rendered [<input>]:
    [showPassword ? 'text' : 'password'] *)
Definition renderedType (st : InteractionState) : Input.InputType :=
  if showPassword st then Input.Text else Input.Password.

(** [showStrengthMeter ? calculatePasswordStrength(passwordValue) : null] *)
Definition strength (showStrengthMeter : bool) (passwordValue : list N)
  : option Strength :=
  if showStrengthMeter then Some (calculatePasswordStrength passwordValue)
  else None.

End PasswordInput.

(** ** What [PasswordInput] renders *)

Module PasswordInputRender.
Import JsString.

(** The props object.  The variant and size types are the ones of [Input];
    [value] is whatever the caller passes for the attribute, [''] by
    default. *)
Record PasswordInputProps : Type := {
  variant : option Input.InputVariant;
  size : option Input.InputSize;
  label : option (list N);
  placeholder : option (list N);
  helperText : option (list N);
  error : option (list N);
  disabled : option bool;
  required : option bool;
  fullWidth : option bool;
  leftIcon : option Node;
  className : option (list N);
  showStrengthMeter : option bool;
  value : option AttrValue;
  onChange : option Callback;
  onFocus : option Callback;
  onBlur : option Callback;
  rest : gmap string AttrValue
}.

(** The template literal of the base styles, before [.trim()] and
    [.replace(/\s+/g, ' ')]. *)
Definition baseStyles_template : list N :=
  Input.sep ++ js "transition-all duration-200 " ++
  Input.sep ++ js "focus:outline-none " ++
  Input.sep ++ js "text-gray-900 " ++
  Input.sep ++ js "placeholder-gray-400 " ++
  Input.sep ++ js "disabled:opacity-50 " ++
  Input.sep ++ js "disabled:cursor-not-allowed" ++ Input.last_sep.

Definition baseStyles : list N := collapse_spaces (trim baseStyles_template).

Definition variants (v : Input.InputVariant) : list N :=
  match v with
  | Input.Default => js "border border-gray-300 bg-white focus:border-indigo-500 focus:ring-2 focus:ring-indigo-200"
  | Input.Filled => js "border-0 bg-gray-100 focus:bg-white focus:ring-2 focus:ring-indigo-500"
  | Input.Outline => js "border-2 border-gray-300 bg-transparent focus:border-indigo-500 focus:ring-2 focus:ring-indigo-200"
  | Input.Underline => js "border-0 border-b-2 border-gray-300 bg-transparent rounded-none focus:border-indigo-500 focus:ring-0"
  | Input.Gradient => js "border-2 border-transparent bg-gradient-to-r from-indigo-50 to-purple-50 focus:from-indigo-100 focus:to-purple-100 focus:border-indigo-500 focus:ring-2 focus:ring-indigo-200"
  end.

(** The size tables are those of [Input], entry for entry. *)
Definition sizes : Input.InputSize -> list N := Input.sizes.
Definition labelSizes : Input.InputSize -> list N := Input.labelSizes.
Definition helperSizes : Input.InputSize -> list N := Input.helperSizes.

Definition handleFocus (props : PasswordInputProps) (e : Event)
  (st : PasswordInput.InteractionState) : PasswordInput.InteractionState * list Call :=
  ({| PasswordInput.showPassword := PasswordInput.showPassword st;
      PasswordInput.isFocused := true |},
   call_opt (onFocus props) e).

Definition handleBlur (props : PasswordInputProps) (e : Event)
  (st : PasswordInput.InteractionState) : PasswordInput.InteractionState * list Call :=
  ({| PasswordInput.showPassword := PasswordInput.showPassword st;
      PasswordInput.isFocused := false |},
   call_opt (onBlur props) e).

(** [typeof value === 'string' ? value : ''] *)
Definition passwordValue (props : PasswordInputProps) : list N :=
  match default (VString []) (value props) with
  | VString s => s
  | _ => []
  end.

Definition strength (props : PasswordInputProps) : option PasswordInput.Strength :=
  PasswordInput.strength (default false (showStrengthMeter props)) (passwordValue props).

Definition inputClasses (props : PasswordInputProps) : list N :=
  collapse_spaces (trim (
    Input.sep ++ baseStyles ++
    Input.sep ++ variants (default Input.Default (variant props)) ++
    Input.sep ++ sizes (default Input.Md (size props)) ++
    Input.sep ++ (if default false (fullWidth props) then js "w-full" else []) ++
    Input.sep ++ (if truthy (error props)
                  then js "border-red-500 focus:border-red-500 focus:ring-red-200"
                  else []) ++
    Input.sep ++ (if present (leftIcon props) then js "pl-10" else []) ++
    Input.sep ++ js "pr-10" ++
    Input.sep ++ default [] (className props) ++ Input.last_sep)).

Record LabelEl : Type := {
  label_className : list N;
  label_text : list N;
  label_star : bool
}.

Definition renderLabel (props : PasswordInputProps) : option LabelEl :=
  if truthy (label props) then
    Some {| label_className :=
              js "block font-medium text-gray-700 mb-1 "
              ++ labelSizes (default Input.Md (size props)) ++ js " "
              ++ (if truthy (error props) then js "text-red-700" else []);
            label_text := default [] (label props);
            label_star := default false (required props) |}
  else None.

(** The [<input>]: its own attributes, then the spread ones. *)
Record InputEl : Type := {
  input_type : Input.InputType;
  input_className : list N;
  input_placeholder : list N;
  input_disabled : bool;
  input_required : bool;
  input_value : AttrValue;
  input_onChange : option Callback;
  input_spread : gmap string AttrValue
}.

(** The toggle button with the eye icon. *)
Record ToggleEl : Type := {
  toggle_ariaLabel : list N;
  toggle_isOpen : bool
}.

(** The strength meter: the label line, the score and the bar. *)
Record MeterEl : Type := {
  meter_label_className : list N;
  meter_label : option (list N);       (* [strength?.label] *)
  meter_score : option Z;              (* [strength?.score], out of 100 *)
  meter_bar_className : list N;
  meter_width : option Z               (* per cent *)
}.

Definition label_is (s : option PasswordInput.Strength) (l : string) : bool :=
  match s with
  | Some x => streq (PasswordInput.label x) (js l)
  | None => false
  end.

(** [showStrengthMeter && passwordValue && <div ...>] *)
Definition renderMeter (props : PasswordInputProps) : option MeterEl :=
  if default false (showStrengthMeter props) && nonempty (passwordValue props) then
    let strength := strength props in
    Some {| meter_label_className :=
              helperSizes (default Input.Md (size props)) ++ js " font-medium "
              ++ (if label_is strength "Weak" then js "text-red-600"
                  else if label_is strength "Fair" then js "text-yellow-600"
                  else if label_is strength "Good" then js "text-blue-600"
                  else js "text-green-600");
            meter_label := PasswordInput.label <$> strength;
            meter_score := PasswordInput.score <$> strength;
            meter_bar_className :=
              js "h-2 rounded-full transition-all duration-300 "
              ++ default (js "undefined") (PasswordInput.color <$> strength);
            meter_width := PasswordInput.score <$> strength |}
  else None.

Record HelperEl : Type := {
  helper_className : list N;
  helper_text : list N
}.

Definition renderHelper (props : PasswordInputProps) : option HelperEl :=
  if truthy (helperText props) || truthy (error props) then
    Some {| helper_className :=
              js "mt-1 " ++ helperSizes (default Input.Md (size props)) ++ js " "
              ++ (if truthy (error props) then js "text-red-600"
                  else js "text-gray-500");
            helper_text :=
              if truthy (error props) then default [] (error props)
              else default [] (helperText props) |}
  else None.

Record View : Type := {
  view_className : list N;
  view_label : option LabelEl;
  view_input : InputEl;
  view_left : option Node;
  view_toggle : ToggleEl;
  view_meter : option MeterEl;
  view_helper : option HelperEl
}.

Definition render (props : PasswordInputProps) (st : PasswordInput.InteractionState)
  : View :=
  {| view_className := if default false (fullWidth props) then js "w-full" else [];
     view_label := renderLabel props;
     view_input :=
       {| input_type := PasswordInput.renderedType st;
          input_className := inputClasses props;
          input_placeholder := default (js "Enter your password") (placeholder props);
          input_disabled := default false (disabled props);
          input_required := default false (required props);
          input_value := default (VString []) (value props);
          input_onChange := onChange props;
          input_spread := rest props |};
     view_left := leftIcon props;
     view_toggle :=
       {| toggle_ariaLabel :=
            if PasswordInput.showPassword st then js "Hide password"
            else js "Show password";
          toggle_isOpen := PasswordInput.showPassword st |};
     view_meter := renderMeter props;
     view_helper := renderHelper props |}.

End PasswordInputRender.

(** ** The form pages

    Every page keeps two [useState] cells: the field values and the error
    dictionary.  A handler runs on the state of the render it was created
    in, and its [setState] calls give the state of the next render.
    Reading a property the object lacks gives [undefined], and calling
    [.trim()] on it throws: such a run is [None].  [e.preventDefault()]
    does not touch the state of the page and is left out. *)

Record FormState : Type := {
  formData : gmap string (list N);
  errors : gmap string (list N)
}.

(** [console.log] entries. *)
Inductive LogEntry : Type :=
| SigninSuccess (data : gmap string (list N))
| SignupSuccess (data : gmap string (list N)).

(** [Object.keys(o).length === 0] *)
Definition no_keys (o : gmap string (list N)) : bool :=
  Nat.eqb (size o) 0.

(** The listener [handleChange(field)] of a page, named by its field, and
    the [value] and [onChange] properties a page passes to a field:
    [value={formData.field} onChange={handleChange('field')}]. *)
Definition change_listener (field : string) : Callback :=
  CallbackRef (Npos (encode field)).

Definition field_rest (value : option (list N)) (onChange : Callback)
  : gmap string AttrValue :=
  let listeners : gmap string AttrValue := <["onChange" := VHandler onChange]> ∅ in
  match value with
  | Some v => <["value" := VString v]> listeners
  | None => listeners
  end.

Module Signin.
Import JsString Regex.

Definition initial : FormState :=
  {| formData := <["email" := []]> (<["password" := []]> ∅); errors := ∅ |}.

(** [handleChange(field)(e)] with [e.target.value = value] *)
Definition handleChange (field : string) (value : list N) (st : FormState)
  : FormState :=
  {| formData := <[field := value]> (formData st);
     errors := if truthy (errors st !! field)
               then <[field := []]> (errors st)
               else errors st |}.

Definition handleSubmit (st : FormState) : option (FormState * list LogEntry) :=
  let newErrors : gmap string (list N) := ∅ in
  email ← formData st !! "email";
  let newErrors :=
    if negb (nonempty (trim email))
    then <["email" := js "Email is required"]> newErrors
    else if negb (test email_re email)
    then <["email" := js "Invalid email"]> newErrors
    else newErrors in
  password ← formData st !! "password";
  let newErrors :=
    if negb (nonempty (trim password))
    then <["password" := js "Password is required"]> newErrors
    else newErrors in
  Some ({| formData := formData st; errors := newErrors |},
        if no_keys newErrors then [SigninSuccess (formData st)] else []).

Definition MailIcon : Node := NodeRef 1.

(** The email field of the page. *)
Definition emailInput (st : FormState) : Input.InputProps :=
  {| Input.variant := None;
     Input.size := None;
     Input.label := Some (js "Email");
     Input.placeholder := Some (js "john@example.com");
     Input.helperText := None;
     Input.error := errors st !! "email";
     Input.disabled := None;
     Input.required := Some true;
     Input.fullWidth := Some true;
     Input.leftIcon := Some MailIcon;
     Input.rightIcon := None;
     Input.className := None;
     Input.onLeftIconClick := None;
     Input.onRightIconClick := None;
     Input.type := Input.Email;
     Input.rest := field_rest (formData st !! "email") (change_listener "email") |}.

(** The password field of the page. *)
Definition passwordInput (st : FormState) : Input.InputProps :=
  {| Input.variant := None;
     Input.size := None;
     Input.label := Some (js "Password");
     Input.placeholder := Some (js "Enter your password");
     Input.helperText := None;
     Input.error := errors st !! "password";
     Input.disabled := None;
     Input.required := Some true;
     Input.fullWidth := Some true;
     Input.leftIcon := None;
     Input.rightIcon := None;
     Input.className := None;
     Input.onLeftIconClick := None;
     Input.onRightIconClick := None;
     Input.type := Input.Password;
     Input.rest := field_rest (formData st !! "password") (change_listener "password") |}.

End Signin.

Module Signup.
Import JsString Regex.

Definition initial : FormState :=
  {| formData := <["name" := []]> (<["email" := []]> (<["password" := []]> ∅));
     errors := ∅ |}.

Definition handleChange (field : string) (value : list N) (st : FormState)
  : FormState :=
  {| formData := <[field := value]> (formData st);
     errors := if truthy (errors st !! field)
               then <[field := []]> (errors st)
               else errors st |}.

Definition handleSubmit (st : FormState) : option (FormState * list LogEntry) :=
  let newErrors : gmap string (list N) := ∅ in
  name ← formData st !! "name";
  let newErrors :=
    if negb (nonempty (trim name))
    then <["name" := js "Name is required"]> newErrors
    else newErrors in
  email ← formData st !! "email";
  let newErrors :=
    if negb (nonempty (trim email))
    then <["email" := js "Email is required"]> newErrors
    else if negb (test email_re email)
    then <["email" := js "Invalid email"]> newErrors
    else newErrors in
  password ← formData st !! "password";
  let newErrors :=
    if negb (nonempty (trim password))
    then <["password" := js "Password is required"]> newErrors
    else if (length password <? 6)%nat
    then <["password" := js "Min 6 characters"]> newErrors
    else newErrors in
  Some ({| formData := formData st; errors := newErrors |},
        if no_keys newErrors then [SignupSuccess (formData st)] else []).

Definition MailsIcon : Node := NodeRef 1.

(** The name field of the page. *)
Definition nameInput (st : FormState) : Input.InputProps :=
  {| Input.variant := None;
     Input.size := None;
     Input.label := Some (js "Full Name");
     Input.placeholder := Some (js "John Doe");
     Input.helperText := None;
     Input.error := errors st !! "name";
     Input.disabled := None;
     Input.required := Some true;
     Input.fullWidth := Some true;
     Input.leftIcon := None;
     Input.rightIcon := None;
     Input.className := None;
     Input.onLeftIconClick := None;
     Input.onRightIconClick := None;
     Input.type := Input.Text;
     Input.rest := field_rest (formData st !! "name") (change_listener "name") |}.

(** The email field of the page. *)
Definition emailInput (st : FormState) : Input.InputProps :=
  {| Input.variant := None;
     Input.size := None;
     Input.label := Some (js "Email");
     Input.placeholder := Some (js "john@example.com");
     Input.helperText := None;
     Input.error := errors st !! "email";
     Input.disabled := None;
     Input.required := Some true;
     Input.fullWidth := Some true;
     Input.leftIcon := None;
     Input.rightIcon := Some MailsIcon;
     Input.className := None;
     Input.onLeftIconClick := None;
     Input.onRightIconClick := None;
     Input.type := Input.Email;
     Input.rest := field_rest (formData st !! "email") (change_listener "email") |}.

(** The password field of the page. *)
Definition passwordInput (st : FormState) : Input.InputProps :=
  {| Input.variant := None;
     Input.size := None;
     Input.label := Some (js "Password");
     Input.placeholder := Some (js "Enter your password");
     Input.helperText := None;
     Input.error := errors st !! "password";
     Input.disabled := None;
     Input.required := Some true;
     Input.fullWidth := Some true;
     Input.leftIcon := None;
     Input.rightIcon := None;
     Input.className := None;
     Input.onLeftIconClick := None;
     Input.onRightIconClick := None;
     Input.type := Input.Password;
     Input.rest := field_rest (formData st !! "password") (change_listener "password") |}.

End Signup.

Module InputDemo.
Import JsString Regex.

Definition initial : FormState :=
  {| formData :=
       <["name" := []]> (<["email" := []]> (<["password" := []]>
       (<["search" := []]> (<["message" := []]> (<["website" := []]>
       (<["phone" := []]> ∅))))));
     errors := ∅ |}.

(** The updater functions run on the current state; the guard reads the
    error dictionary of the render. *)
Definition handleInputChange (field : string) (value : list N) (st : FormState)
  : FormState :=
  {| formData := <[field := value]> (formData st);
     errors := if truthy (errors st !! field)
               then <[field := []]> (errors st)
               else errors st |}.

Definition handleClearSearch (st : FormState) : FormState :=
  {| formData := <["search" := []]> (formData st); errors := errors st |}.

Definition validateForm (st : FormState) : option FormState :=
  let newErrors : gmap string (list N) := ∅ in
  name ← formData st !! "name";
  let newErrors :=
    if negb (nonempty (trim name))
    then <["name" := js "Name is required"]> newErrors
    else newErrors in
  email ← formData st !! "email";
  let newErrors :=
    if negb (nonempty (trim email))
    then <["email" := js "Email is required"]> newErrors
    else if negb (test email_re email)
    then <["email" := js "Please enter a valid email"]> newErrors
    else newErrors in
  password ← formData st !! "password";
  let newErrors :=
    if negb (nonempty (trim password))
    then <["password" := js "Password is required"]> newErrors
    else if (length password <? 6)%nat
    then <["password" := js "Password must be at least 6 characters"]> newErrors
    else newErrors in
  Some {| formData := formData st; errors := newErrors |}.

Definition UserIcon : Node := NodeRef 1.
Definition MailIcon : Node := NodeRef 2.
Definition SearchIcon : Node := NodeRef 3.
Definition ClearIcon : Node := NodeRef 4.

(** The listener [handleClearSearch].  ([ClearIcon] stands for the icon of
    the trailing slot; the copy of the page under [apps] passes another
    one.) *)
Definition clear_listener : Callback := CallbackRef 0.

(** The [Clear Form] button. *)
Definition clearForm (st : FormState) : FormState := initial.

(** The search field of the icons row. *)
Definition searchInput (st : FormState) : Input.InputProps :=
  {| Input.variant := None;
     Input.size := None;
     Input.label := Some (js "Search");
     Input.placeholder := Some (js "Search...");
     Input.helperText := None;
     Input.error := None;
     Input.disabled := None;
     Input.required := None;
     Input.fullWidth := None;
     Input.leftIcon := Some SearchIcon;
     Input.rightIcon := if truthy (formData st !! "search") then Some ClearIcon else None;
     Input.className := None;
     Input.onLeftIconClick := None;
     Input.onRightIconClick := Some clear_listener;
     Input.type := Input.Search;
     Input.rest := field_rest (formData st !! "search") (change_listener "search") |}.

(** The fields of the complete form example. *)
Definition nameInput (st : FormState) : Input.InputProps :=
  {| Input.variant := None;
     Input.size := None;
     Input.label := Some (js "Full Name");
     Input.placeholder := Some (js "John Doe");
     Input.helperText := None;
     Input.error := errors st !! "name";
     Input.disabled := None;
     Input.required := Some true;
     Input.fullWidth := Some true;
     Input.leftIcon := Some UserIcon;
     Input.rightIcon := None;
     Input.className := None;
     Input.onLeftIconClick := None;
     Input.onRightIconClick := None;
     Input.type := Input.Text;
     Input.rest := field_rest (formData st !! "name") (change_listener "name") |}.

Definition emailInput (st : FormState) : Input.InputProps :=
  {| Input.variant := None;
     Input.size := None;
     Input.label := Some (js "Email Address");
     Input.placeholder := Some (js "john@example.com");
     Input.helperText := None;
     Input.error := errors st !! "email";
     Input.disabled := None;
     Input.required := Some true;
     Input.fullWidth := Some true;
     Input.leftIcon := Some MailIcon;
     Input.rightIcon := None;
     Input.className := None;
     Input.onLeftIconClick := None;
     Input.onRightIconClick := None;
     Input.type := Input.Email;
     Input.rest := field_rest (formData st !! "email") (change_listener "email") |}.

Definition passwordInput (st : FormState) : Input.InputProps :=
  {| Input.variant := None;
     Input.size := None;
     Input.label := Some (js "Password");
     Input.placeholder := Some (js "Enter your password");
     Input.helperText := Some (js "Minimum 6 characters");
     Input.error := errors st !! "password";
     Input.disabled := None;
     Input.required := Some true;
     Input.fullWidth := Some true;
     Input.leftIcon := None;
     Input.rightIcon := None;
     Input.className := None;
     Input.onLeftIconClick := None;
     Input.onRightIconClick := None;
     Input.type := Input.Password;
     Input.rest := field_rest (formData st !! "password") (change_listener "password") |}.

End InputDemo.

Module PasswordInputDemo.
Import JsString Regex.

(** The [passwords] cell is the [formData] of this page. *)
Definition initial : FormState :=
  {| formData :=
       <["basic" := []]> (<["withStrength" := []]> (<["withIcon" := []]>
       (<["form" := []]> ∅)));
     errors := ∅ |}.

Definition handlePasswordChange (field : string) (value : list N) (st : FormState)
  : FormState :=
  {| formData := <[field := value]> (formData st);
     errors := if truthy (errors st !! field)
               then <[field := []]> (errors st)
               else errors st |}.

Definition validatePasswords (st : FormState) : option FormState :=
  let newErrors : gmap string (list N) := ∅ in
  form ← formData st !! "form";
  let newErrors :=
    if negb (nonempty (trim form))
    then <["form" := js "Password is required"]> newErrors
    else if (length form <? 8)%nat
    then <["form" := js "Password must be at least 8 characters"]> newErrors
    else if negb (test mixed_re form)
    then <["form" := js "Password must contain uppercase, lowercase, and numbers"]> newErrors
    else newErrors in
  Some {| formData := formData st; errors := newErrors |}.

End PasswordInputDemo.

(** ** Vocabulary of the properties *)

(** The six conditions the strength estimator looks at. *)
Inductive Condition : Type :=
| LengthAtLeast8 | LengthAtLeast12 | HasLowercase | HasUppercase | HasDigit | HasSymbol.

Definition satisfies (c : Condition) (password : list N) : bool :=
  match c with
  | LengthAtLeast8 => (8 <=? length password)%nat
  | LengthAtLeast12 => (12 <=? length password)%nat
  | HasLowercase => existsb Regex.lower password
  | HasUppercase => existsb Regex.upper password
  | HasDigit => existsb Regex.digit password
  | HasSymbol => existsb Regex.symbol password
  end.

(** What a satisfied condition adds to the score. *)
Definition increment (c : Condition) : Z :=
  match c with
  | LengthAtLeast8 => 25
  | LengthAtLeast12 => 10
  | HasLowercase | HasUppercase | HasDigit => 15
  | HasSymbol => 20
  end.

Definition contribution (c : Condition) (password : list N) : Z :=
  if satisfies c password then increment c else 0.

(** The sum of the contributions. *)
Definition total (password : list N) : Z :=
  (contribution LengthAtLeast8 password + contribution LengthAtLeast12 password
   + contribution HasLowercase password + contribution HasUppercase password
   + contribution HasDigit password + contribution HasSymbol password)%Z.

Definition label_of_score (score : Z) : list N :=
  if (score <? 30)%Z then JsString.js "Weak"
  else if (score <? 60)%Z then JsString.js "Fair"
  else if (score <? 80)%Z then JsString.js "Good"
  else JsString.js "Strong".

Definition is_multi_line (c : Input.Control) : bool :=
  match c with Input.TextareaEl _ _ _ _ _ _ => true | Input.InputEl _ _ _ _ _ _ => false end.

Definition is_single_line (c : Input.Control) : bool :=
  match c with Input.TextareaEl _ _ _ _ _ _ => false | Input.InputEl _ _ _ _ _ _ => true end.

Definition type_attribute (c : Input.Control) : option Input.InputType :=
  match c with Input.TextareaEl _ _ _ _ _ _ => None | Input.InputEl ty _ _ _ _ _ => Some ty end.

(** [n] clicks on the eye icon of an [Input], starting from [st]. *)
Fixpoint clicks (props : Input.InputProps) (e : Event) (n : nat)
  (st : Input.InteractionState) : Input.InteractionState :=
  match n with
  | O => st
  | S n' => clicks props e n' (fst (Input.rightSlotClick props e st))
  end.

(** An [Input] given its kind only, and the password field of the demo
    page: [<Input type="password" placeholder="Password input" />]. *)
Definition bare (ty : Input.InputType) : Input.InputProps :=
  {| Input.variant := None; Input.size := None; Input.label := None;
     Input.placeholder := None; Input.helperText := None; Input.error := None;
     Input.disabled := None; Input.required := None; Input.fullWidth := None;
     Input.leftIcon := None; Input.rightIcon := None; Input.className := None;
     Input.onLeftIconClick := None; Input.onRightIconClick := None;
     Input.type := ty; Input.rest := ∅ |}.

Definition demo_password : Input.InputProps :=
  {| Input.variant := None; Input.size := None; Input.label := None;
     Input.placeholder := Some (JsString.js "Password input");
     Input.helperText := None; Input.error := None;
     Input.disabled := None; Input.required := None; Input.fullWidth := None;
     Input.leftIcon := None; Input.rightIcon := None; Input.className := None;
     Input.onLeftIconClick := None; Input.onRightIconClick := None;
     Input.type := Input.Password; Input.rest := ∅ |}.

(** A busy button that has a leading decoration and a click handler. *)
Definition busy_button : Button.ButtonProps :=
  {| Button.children := NodeRef 0; Button.variant := None; Button.size := None;
     Button.disabled := None; Button.loading := Some true;
     Button.fullWidth := None; Button.leftIcon := Some (NodeRef 1);
     Button.rightIcon := None; Button.onClick := Some (CallbackRef 0);
     Button.type := None; Button.className := None; Button.rest := ∅ |}.

(** A change of [field] to [value] clears the error of [field] and
    nothing else: the entry of [field] becomes the empty string, which is
    no error, the other entries are kept, and the value is stored. *)
Definition clears (field : string) (value : list N) (st st' : FormState) : Prop :=
  errors st' = <[field := []]> (errors st)
  /\ JsString.truthy (errors st' !! field) = false
  /\ (forall other : string, other <> field -> errors st' !! other = errors st !! other)
  /\ formData st' = <[field := value]> (formData st).

(** Form states with the given values and no error. *)
Definition signin_form (email password : list N) : FormState :=
  {| formData := <["email" := email]> (<["password" := password]> ∅);
     errors := ∅ |}.

Definition signup_form (name email password : list N) : FormState :=
  {| formData := <["name" := name]> (<["email" := email]>
                   (<["password" := password]> ∅));
     errors := ∅ |}.

(** The sign-up form after a sequence of change events, oldest first. *)
Definition signup_after (events : list (string * list N)) : FormState :=
  fold_left (fun st ev => Signup.handleChange (fst ev) (snd ev) st)
    events Signup.initial.

(** The sign-in form after a submission that rejected the email. *)
Definition signin_rejected : FormState :=
  {| formData := <["email" := JsString.js "john"]> (<["password" := JsString.js "secret"]> ∅);
     errors := <["email" := JsString.js "Invalid email"]> ∅ |}.

(** The class names of a class attribute: the maximal runs of characters
    other than white space, in order. *)
Definition starts_word (s : list N) : bool :=
  match s with c :: _ => JsString.non_space c | [] => false end.

Fixpoint words (s : list N) : list (list N) :=
  match s with
  | [] => []
  | c :: s' =>
      if JsString.is_space c then words s'
      else if starts_word s' then
             match words s' with
             | w :: ws => (c :: w) :: ws
             | [] => [[c]]
             end
           else [c] :: words s'
  end.

(** The words joined by single spaces. *)
Fixpoint join (ws : list (list N)) : list N :=
  match ws with
  | [] => []
  | [w] => w
  | w :: ws' => w ++ 0x20 :: join ws'
  end.

(** A string that does not end with white space. *)
Fixpoint no_trailing (s : list N) : bool :=
  match s with
  | [] => true
  | c :: s' =>
      match s' with
      | [] => JsString.non_space c
      | _ :: _ => no_trailing s'
      end
  end.

(** The part of a string before its first line terminator. *)
Fixpoint first_line (s : list N) : list N :=
  match s with
  | [] => []
  | c :: s' => if Regex.dot c then c :: first_line s' else []
  end.

(** A form after a sequence of change events, oldest first, for the change
    handler [h] of a page. *)
Definition after_changes (h : string -> list N -> FormState -> FormState)
  (events : list (string * list N)) (st : FormState) : FormState :=
  fold_left (fun st ev => h (fst ev) (snd ev) st) events st.

(** The value the latest event of [events] gave to [field], if any. *)
Fixpoint last_write (field : string) (events : list (string * list N))
  : option (list N) :=
  match events with
  | [] => None
  | (f, v) :: rest =>
      match last_write field rest with
      | Some w => Some w
      | None => if String.eqb f field then Some v else None
      end
  end.

(** The rules of the sign-up form and of the sign-in form. *)
Definition signup_valid (name email password : list N) : bool :=
  JsString.nonempty (JsString.trim name)
  && Regex.test Regex.email_re email
  && JsString.nonempty (JsString.trim password)
  && (6 <=? length password)%nat.

Definition signin_valid (email password : list N) : bool :=
  Regex.test Regex.email_re email
  && JsString.nonempty (JsString.trim password).

(** A password input with the strength meter on and the given value. *)
Definition meter_props (value : option AttrValue) : PasswordInputRender.PasswordInputProps :=
  {| PasswordInputRender.variant := None; PasswordInputRender.size := None;
     PasswordInputRender.label := None; PasswordInputRender.placeholder := None;
     PasswordInputRender.helperText := None; PasswordInputRender.error := None;
     PasswordInputRender.disabled := None; PasswordInputRender.required := None;
     PasswordInputRender.fullWidth := None; PasswordInputRender.leftIcon := None;
     PasswordInputRender.className := None;
     PasswordInputRender.showStrengthMeter := Some true;
     PasswordInputRender.value := value;
     PasswordInputRender.onChange := None; PasswordInputRender.onFocus := None;
     PasswordInputRender.onBlur := None; PasswordInputRender.rest := ∅ |}.

(** The attributes of a rendered control. *)
Definition spread_of (c : Input.Control) : gmap string AttrValue :=
  match c with
  | Input.TextareaEl _ _ _ _ _ sp => sp
  | Input.InputEl _ _ _ _ _ sp => sp
  end.

Definition class_of (c : Input.Control) : list N :=
  match c with
  | Input.TextareaEl cls _ _ _ _ _ => cls
  | Input.InputEl _ cls _ _ _ _ => cls
  end.

Definition rows_of (c : Input.Control) : option Z :=
  match c with
  | Input.TextareaEl _ _ _ _ n _ => Some n
  | Input.InputEl _ _ _ _ _ _ => None
  end.

(** A text area of four rows that is not resizable, with a name. *)
Definition demo_textarea : Input.InputProps :=
  {| Input.variant := None; Input.size := None; Input.label := None;
     Input.placeholder := None; Input.helperText := None; Input.error := None;
     Input.disabled := None; Input.required := None; Input.fullWidth := None;
     Input.leftIcon := None; Input.rightIcon := None; Input.className := None;
     Input.onLeftIconClick := None; Input.onRightIconClick := None;
     Input.type := Input.Textarea;
     Input.rest := <["rows" := VNumber 4]> (<["resize" := VBool false]>
                     (<["name" := VString (JsString.js "message")]> ∅)) |}.

(** An error dictionary whose keys are among [fields] and whose messages
    are not empty. *)
Definition well_formed_errors (fields : list string) (errs : gmap string (list N))
  : Prop :=
  forall (k : string) (m : list N), errs !! k = Some m -> In k fields /\ m <> [].




(** The props [p] with [error] replaced. *)
Definition with_error (p : Input.InputProps) (e : option (list N)) : Input.InputProps :=
  {| Input.variant := Input.variant p; Input.size := Input.size p;
     Input.label := Input.label p; Input.placeholder := Input.placeholder p;
     Input.helperText := Input.helperText p; Input.error := e;
     Input.disabled := Input.disabled p; Input.required := Input.required p;
     Input.fullWidth := Input.fullWidth p; Input.leftIcon := Input.leftIcon p;
     Input.rightIcon := Input.rightIcon p; Input.className := Input.className p;
     Input.onLeftIconClick := Input.onLeftIconClick p;
     Input.onRightIconClick := Input.onRightIconClick p;
     Input.type := Input.type p; Input.rest := Input.rest p |}.

(** A form with the values of [st] and no error. *)
Definition without_errors (st : FormState) : FormState :=
  {| formData := formData st; errors := ∅ |}.

(** The line under a field that shows the message [m] of a validation. *)
Definition error_line (m : list N) : Input.HelperEl :=
  {| Input.helper_className := JsString.js "mt-1 text-sm text-red-600";
     Input.helper_text := m |}.

(** How many of the four character classes a password has. *)
Definition class_count (password : list N) : nat :=
  Nat.b2n (satisfies HasLowercase password)
  + Nat.b2n (satisfies HasUppercase password)
  + Nat.b2n (satisfies HasDigit password)
  + Nat.b2n (satisfies HasSymbol password).

(** A password input given its value only. *)
Definition plain_password_props : PasswordInputRender.PasswordInputProps :=
  {| PasswordInputRender.variant := None; PasswordInputRender.size := None;
     PasswordInputRender.label := None; PasswordInputRender.placeholder := None;
     PasswordInputRender.helperText := None; PasswordInputRender.error := None;
     PasswordInputRender.disabled := None; PasswordInputRender.required := None;
     PasswordInputRender.fullWidth := None; PasswordInputRender.leftIcon := None;
     PasswordInputRender.className := None;
     PasswordInputRender.showStrengthMeter := None;
     PasswordInputRender.value := None;
     PasswordInputRender.onChange := None; PasswordInputRender.onFocus := None;
     PasswordInputRender.onBlur := None; PasswordInputRender.rest := ∅ |}.

(** * Properties *)

(** ** Strings *)

Section StringFacts.
Import JsString.

Lemma js_length (s : string) : length (js s) = String.length s.
Proof.
  unfold js. rewrite length_map.
  induction s as [|a s IH]; simpl; [reflexivity | now rewrite IH].
Qed.

Lemma forallb_rev {A : Type} (p : A -> bool) (l : list A) :
  forallb p (rev l) = forallb p l.
Proof.
  induction l as [|x l IH]; simpl; [reflexivity|].
  rewrite forallb_app, IH. simpl. rewrite andb_true_r. apply andb_comm.
Qed.

Lemma trimStart_nil (s : list N) :
  trimStart s = [] <-> forallb is_space s = true.
Proof.
  induction s as [|c s IH]; simpl; [tauto|].
  destruct (is_space c); simpl; [exact IH|]. split; discriminate.
Qed.

Lemma forallb_trimStart (s : list N) :
  forallb is_space (trimStart s) = forallb is_space s.
Proof.
  induction s as [|c s IH]; simpl; [reflexivity|].
  destruct (is_space c) eqn:E; simpl; [exact IH | now rewrite E].
Qed.

Lemma trim_nil (s : list N) : trim s = [] <-> forallb is_space s = true.
Proof.
  unfold trim, trimEnd.
  rewrite <- (forallb_trimStart s), <- (forallb_rev is_space (trimStart s)).
  rewrite <- trimStart_nil. split.
  - intros H. apply (f_equal (@rev N)) in H. now rewrite rev_involutive in H.
  - intros H. now rewrite H.
Qed.

(** [s.trim()] is truthy exactly when [s] has a character that is not
    white space. *)
Lemma nonempty_trim (s : list N) :
  nonempty (trim s) = existsb non_space s.
Proof.
  assert (E : existsb non_space s = negb (forallb is_space s)).
  { induction s as [|c s IH]; simpl; [reflexivity|].
    rewrite IH. unfold non_space. now destruct (is_space c). }
  rewrite E. destruct (forallb is_space s) eqn:F.
  - apply trim_nil in F. now rewrite F.
  - destruct (trim s) eqn:T; [|reflexivity].
    apply trim_nil in T. congruence.
Qed.

Lemma nonempty_trim_nonempty (s : list N) :
  nonempty (trim s) = true -> nonempty s = true.
Proof. rewrite nonempty_trim. now destruct s. Qed.

Example trim_example : trim (js "  john doe ") = js "john doe".
Proof. reflexivity. Qed.

Example trim_blank : trim [0x20; 0x9; 0xA0; 0xA] = [].
Proof. reflexivity. Qed.

Example collapse_example :
  collapse_spaces (trim ([0xA; 0x20; 0x20] ++ js "w-full" ++ [0xA; 0x20; 0x20; 0xA]
                         ++ js "pl-10" ++ [0xA]))
  = js "w-full pl-10".
Proof. reflexivity. Qed.

End StringFacts.

(** ** The matcher *)

Section RegexFacts.
Import JsString Regex.

Lemma star_k_spec (p : N -> bool) (k : list N -> bool) (s : list N) :
  star_k p k s = true <-> exists s', matches (Star p) s s' /\ k s' = true.
Proof.
  induction s as [|c s IH]; simpl.
  - split.
    + intros H. exists []. split; [constructor | exact H].
    + intros (s' & M & K). inversion M; subst. exact K.
  - rewrite orb_true_iff, andb_true_iff, IH. split.
    + intros [[P (s' & M & K)] | K].
      * exists s'. split; [now apply m_star_step | exact K].
      * exists (c :: s). split; [constructor | exact K].
    + intros (s' & M & K). inversion M; subst.
      * now right.
      * left. split; [assumption|]. now exists s'.
Qed.

Lemma rmatch_spec (r : regex) :
  forall (s : list N) (k : list N -> bool),
    rmatch r s k = true <-> exists s', matches r s s' /\ k s' = true.
Proof.
  induction r as [p | p | p | r1 IH1 r2 IH2 | r IH]; intros s k; simpl.
  - destruct s as [|c s].
    + split; [discriminate|]. intros (s' & M & _). inversion M.
    + rewrite andb_true_iff. split.
      * intros [P K]. exists s. split; [now constructor | exact K].
      * intros (s' & M & K). inversion M; subst. now split.
  - apply star_k_spec.
  - destruct s as [|c s].
    + split; [discriminate|]. intros (s' & M & _). inversion M.
    + rewrite andb_true_iff, star_k_spec. split.
      * intros [P (s' & M & K)]. exists s'. split; [now constructor | exact K].
      * intros (s' & M & K). inversion M; subst. split; [assumption|].
        now exists s'.
  - rewrite IH1. split.
    + intros (s1 & M1 & R). apply IH2 in R. destruct R as (s2 & M2 & K).
      exists s2. split; [now apply m_cat with s1 | exact K].
    + intros (s2 & M & K). inversion M; subst.
      exists s1. split; [assumption|]. apply IH2. now exists s2.
  - rewrite andb_true_iff, IH. split.
    + intros [(s' & M & _) K]. exists s. split; [now apply m_look with s' | exact K].
    + intros (s' & M & K). inversion M; subst. split; [|exact K].
      now exists s'0.
Qed.

(** [test] succeeds exactly when some suffix of the string starts with a
    match. *)
Lemma test_spec (r : regex) (s : list N) :
  test r s = true <->
  exists pre s1 s', s = pre ++ s1 /\ matches r s1 s'.
Proof.
  induction s as [|c s IH]; simpl.
  - rewrite orb_false_r, rmatch_spec. split.
    + intros (s' & M & _). now exists [], [], s'.
    + intros (pre & s1 & s' & E & M).
      symmetry in E. apply app_eq_nil in E. destruct E; subst. now exists s'.
  - rewrite orb_true_iff, rmatch_spec, IH. split.
    + intros [(s' & M & _) | (pre & s1 & s' & E & M)].
      * now exists [], (c :: s), s'.
      * exists (c :: pre), s1, s'. now subst.
    + intros (pre & s1 & s' & E & M). destruct pre as [|c' pre]; simpl in E.
      * left. subst. now exists s'.
      * right. injection E as _ E. now exists pre, s1, s'.
Qed.

Lemma test_atom (p : N -> bool) (s : list N) :
  test (Atom p) s = existsb p s.
Proof.
  induction s as [|c s IH]; simpl; [reflexivity|].
  now rewrite andb_true_r, IH.
Qed.

Lemma matches_star (p : N -> bool) (s s' : list N) :
  matches (Star p) s s' <-> exists a, s = a ++ s' /\ forallb p a = true.
Proof.
  split.
  - intros M. remember (Star p) as r eqn:R.
    induction M; try discriminate; injection R as ->.
    + now exists [].
    + destruct (IHM eq_refl) as (a & -> & F).
      exists (c :: a). simpl. split; [reflexivity|]. now rewrite H, F.
  - intros (a & -> & F). induction a as [|c a IH]; simpl in *.
    + constructor.
    + apply andb_true_iff in F. destruct F as [P F].
      apply m_star_step; [assumption | now apply IH].
Qed.

Lemma matches_plus (p : N -> bool) (s s' : list N) :
  matches (Plus p) s s' <->
  exists a, a <> [] /\ s = a ++ s' /\ forallb p a = true.
Proof.
  split.
  - intros M. inversion M as [ | | |p0 c s0 s0' P S| | ]; subst.
    apply matches_star in S. destruct S as (a & -> & F).
    exists (c :: a). simpl. repeat split; [discriminate|]. now rewrite P, F.
  - intros (a & NE & -> & F). destruct a as [|c a]; [congruence|].
    simpl in *. apply andb_true_iff in F. destruct F as [P F].
    constructor; [assumption|]. apply matches_star. now exists a.
Qed.

Example mixed_accepts : test mixed_re (js "1Ba") = true.
Proof. reflexivity. Qed.

Example mixed_rejects : test mixed_re (js "abcdefg1") = false.
Proof. reflexivity. Qed.

(** [.] stops at a line terminator, so the three lookaheads have to
    succeed on one line. *)
Example mixed_line_break : test mixed_re (js "a" ++ [0xA] ++ js "B1") = false.
Proof. reflexivity. Qed.

Example email_inside_text : test email_re (js "to john@example.com now") = true.
Proof. reflexivity. Qed.

Example email_without_host : test email_re (js "john@.com") = false.
Proof. reflexivity. Qed.

End RegexFacts.

(** ** The strength estimator *)

Section StrengthFacts.
Import JsString Regex PasswordInput.

(** Every code unit is in one of the four classes. *)
Lemma class_cover (c : N) :
  lower c || upper c || digit c || symbol c = true.
Proof. unfold symbol. destruct (lower c), (upper c), (digit c); reflexivity. Qed.

Lemma some_class (password : list N) :
  password <> [] ->
  satisfies HasLowercase password || satisfies HasUppercase password
  || satisfies HasDigit password || satisfies HasSymbol password = true.
Proof.
  destruct password as [|c s]; [congruence|]. intros _. simpl.
  pose proof (class_cover c) as C.
  destruct (lower c), (upper c), (digit c), (symbol c); try discriminate C;
    destruct (existsb lower s), (existsb upper s), (existsb digit s);
    reflexivity.
Qed.

Lemma total_bounds (password : list N) : (0 <= total password <= 100)%Z.
Proof.
  unfold total, contribution.
  destruct (satisfies LengthAtLeast8 password), (satisfies LengthAtLeast12 password),
    (satisfies HasLowercase password), (satisfies HasUppercase password),
    (satisfies HasDigit password), (satisfies HasSymbol password);
    simpl; lia.
Qed.

(** The estimator on a non-empty string, in one equation. *)
Lemma calculate_nonempty (password : list N) :
  password <> [] ->
  calculatePasswordStrength password =
  {| score := total password;
     label := label_of_score (total password);
     color := if (total password <? 30)%Z then js "bg-red-500"
              else if (total password <? 60)%Z then js "bg-yellow-500"
              else if (total password <? 80)%Z then js "bg-blue-500"
              else js "bg-green-500" |}.
Proof.
  intros NE. unfold calculatePasswordStrength, total, contribution, label_of_score.
  destruct password as [|c s]; [congruence|].
  cbn [nonempty negb satisfies increment]. rewrite !test_atom.
  destruct (8 <=? length (c :: s))%nat, (12 <=? length (c :: s))%nat,
    (existsb lower (c :: s)), (existsb upper (c :: s)),
    (existsb digit (c :: s)), (existsb symbol (c :: s)); reflexivity.
Qed.

Lemma contribution_mono (c : Condition) (p q : list N) :
  (satisfies c p = true -> satisfies c q = true) ->
  (contribution c p <= contribution c q)%Z.
Proof.
  unfold contribution. intros H.
  destruct (satisfies c p); [rewrite H by reflexivity; lia|].
  destruct (satisfies c q), c; simpl; lia.
Qed.

Example strength_lowercase_only :
  calculatePasswordStrength (js "abcdefgh")
  = {| score := 40; label := js "Fair"; color := js "bg-yellow-500" |}.
Proof. reflexivity. Qed.

Example strength_one_letter :
  calculatePasswordStrength (js "a")
  = {| score := 15; label := js "Weak"; color := js "bg-red-500" |}.
Proof. reflexivity. Qed.

Example strength_full :
  score (calculatePasswordStrength (js "Abcdefgh1234!")) = 100%Z.
Proof. reflexivity. Qed.

(** C3: for every non-empty password the score is the sum of 25 when the
    length is at least 8, 10 more when it is at least 12, 15 for each of
    has-lowercase, has-uppercase, has-digit and 20 for has-symbol; the sum
    is at most 100; the label is Weak below 30, Fair from 30 and below 60,
    Good from 60 and below 80, Strong from 80. *)
Theorem strength_score_and_label (password : list N) :
  password <> [] ->
  let s := calculatePasswordStrength password in
  score s =
    (contribution LengthAtLeast8 password + contribution LengthAtLeast12 password
     + contribution HasLowercase password + contribution HasUppercase password
     + contribution HasDigit password + contribution HasSymbol password)%Z
  /\ (score s <= 100)%Z
  /\ ((score s < 30)%Z -> label s = js "Weak")
  /\ ((30 <= score s < 60)%Z -> label s = js "Fair")
  /\ ((60 <= score s < 80)%Z -> label s = js "Good")
  /\ ((80 <= score s)%Z -> label s = js "Strong").
Proof.
  intros NE s. subst s. rewrite (calculate_nonempty password NE). cbn [score label].
  pose proof (total_bounds password) as B. fold (total password).
  unfold label_of_score.
  repeat split; try lia; intros H;
    repeat match goal with
    | |- context [(?a <? ?b)%Z] => destruct (Z.ltb_spec a b); try lia
    end; reflexivity.
Qed.

Lemma strength_score_and_label_witness :
  js "Abcdefg1" <> [] /\
  let s := calculatePasswordStrength (js "Abcdefg1") in
  score s =
    (contribution LengthAtLeast8 (js "Abcdefg1")
     + contribution LengthAtLeast12 (js "Abcdefg1")
     + contribution HasLowercase (js "Abcdefg1")
     + contribution HasUppercase (js "Abcdefg1")
     + contribution HasDigit (js "Abcdefg1")
     + contribution HasSymbol (js "Abcdefg1"))%Z
  /\ (score s <= 100)%Z
  /\ ((score s < 30)%Z -> label s = js "Weak")
  /\ ((30 <= score s < 60)%Z -> label s = js "Fair")
  /\ ((60 <= score s < 80)%Z -> label s = js "Good")
  /\ ((80 <= score s)%Z -> label s = js "Strong").
Proof.
  split; [vm_compute; discriminate|].
  apply (strength_score_and_label (js "Abcdefg1")). vm_compute; discriminate.
Defined.

(** C4: when every condition (length at least 8, length at least 12,
    lowercase, uppercase, digit, symbol) that [p] satisfies is satisfied by
    [q] as well, the score of [p] is at most the score of [q]. *)
Theorem strength_monotone (p q : list N) :
  (forall c, satisfies c p = true -> satisfies c q = true) ->
  (score (calculatePasswordStrength p) <= score (calculatePasswordStrength q))%Z.
Proof.
  intros H.
  destruct p as [|a p'].
  - destruct q as [|b q']; [reflexivity|].
    rewrite (calculate_nonempty (b :: q')) by discriminate. simpl.
    apply total_bounds.
  - set (p := a :: p') in *. assert (NP : p <> []) by discriminate.
    clearbody p. destruct q as [|b q'].
    + exfalso. pose proof (some_class p NP) as S.
      repeat (apply orb_true_iff in S; destruct S as [S | S]);
        apply H in S; discriminate S.
    + set (q := b :: q') in *. assert (NQ : q <> []) by discriminate.
      clearbody q.
      rewrite (calculate_nonempty p NP), (calculate_nonempty q NQ). cbn [score].
      unfold total.
      pose proof (contribution_mono LengthAtLeast8 p q (H _)).
      pose proof (contribution_mono LengthAtLeast12 p q (H _)).
      pose proof (contribution_mono HasLowercase p q (H _)).
      pose proof (contribution_mono HasUppercase p q (H _)).
      pose proof (contribution_mono HasDigit p q (H _)).
      pose proof (contribution_mono HasSymbol p q (H _)).
      lia.
Qed.

Lemma strength_monotone_witness :
  (forall c, satisfies c (js "abc") = true -> satisfies c (js "xyz12345") = true) /\
  (score (calculatePasswordStrength (js "abc"))
   <= score (calculatePasswordStrength (js "xyz12345")))%Z.
Proof.
  assert (H : forall c, satisfies c (js "abc") = true ->
                        satisfies c (js "xyz12345") = true).
  { intros c. destruct c; vm_compute; intros E; first [reflexivity | discriminate E]. }
  split; [exact H|].
  apply (strength_monotone (js "abc") (js "xyz12345")). exact H.
Defined.

(** C10: on the empty string the estimator returns score 0 with an empty
    label and an empty color; on every non-empty string the score is at
    least 15 and the label is one of Weak, Fair, Good, Strong, because every
    character is in one of the four classes. *)
Theorem strength_empty_and_floor :
  calculatePasswordStrength [] = {| score := 0; label := []; color := [] |}
  /\ (forall c : N, lower c || upper c || digit c || symbol c = true)
  /\ forall password : list N,
      password <> [] ->
      (15 <= score (calculatePasswordStrength password))%Z
      /\ In (label (calculatePasswordStrength password))
           [js "Weak"; js "Fair"; js "Good"; js "Strong"]
      /\ label (calculatePasswordStrength password) <> [].
Proof.
  split; [reflexivity|]. split; [exact class_cover|].
  intros password NE. rewrite (calculate_nonempty password NE). cbn [score label].
  pose proof (some_class password NE) as S.
  assert (F : (15 <= total password)%Z).
  { unfold total, contribution.
    destruct (satisfies LengthAtLeast8 password),
      (satisfies LengthAtLeast12 password),
      (satisfies HasLowercase password), (satisfies HasUppercase password),
      (satisfies HasDigit password), (satisfies HasSymbol password);
      simpl in *; try lia; discriminate S. }
  split; [exact F|]. unfold label_of_score.
  destruct (total password <? 30)%Z; [split; [simpl; tauto | discriminate]|].
  destruct (total password <? 60)%Z; [split; [simpl; tauto | discriminate]|].
  destruct (total password <? 80)%Z; split; simpl; try tauto; discriminate.
Qed.

Lemma strength_empty_and_floor_witness :
  js "a" <> [] /\
  (15 <= score (calculatePasswordStrength (js "a")))%Z
  /\ In (label (calculatePasswordStrength (js "a")))
       [js "Weak"; js "Fair"; js "Good"; js "Strong"]
  /\ label (calculatePasswordStrength (js "a")) <> [].
Proof.
  split; [vm_compute; discriminate|].
  apply (proj2 (proj2 strength_empty_and_floor) (js "a")). vm_compute; discriminate.
Defined.

End StrengthFacts.

(** ** The field control *)

Section InputFacts.
Import JsString Input.

Lemma isTextareaProps_iff (props : InputProps) :
  isTextareaProps props = true <-> type props = Textarea.
Proof. unfold isTextareaProps. destruct (type props); simpl; split; congruence. Qed.

Lemma toggle_iter (n : nat) (st : InteractionState) :
  showPassword (Nat.iter n togglePasswordVisibility st)
  = if Nat.even n then showPassword st else negb (showPassword st).
Proof.
  induction n as [|n IH]; [reflexivity|].
  rewrite Nat.even_succ, <- Nat.negb_even, Nat.iter_succ.
  cbn [togglePasswordVisibility showPassword]. rewrite IH.
  destruct (Nat.even n), (showPassword st); reflexivity.
Qed.

Lemma password_toggle_iter (n : nat) (st : PasswordInput.InteractionState) :
  PasswordInput.showPassword (Nat.iter n PasswordInput.togglePasswordVisibility st)
  = if Nat.even n then PasswordInput.showPassword st
    else negb (PasswordInput.showPassword st).
Proof.
  induction n as [|n IH]; [reflexivity|].
  rewrite Nat.even_succ, <- Nat.negb_even, Nat.iter_succ.
  cbn [PasswordInput.togglePasswordVisibility PasswordInput.showPassword]. rewrite IH.
  destruct (Nat.even n), (PasswordInput.showPassword st); reflexivity.
Qed.

Lemma clicks_iter (props : InputProps) (e : Event) (n : nat) :
  type props = Password ->
  forall st, clicks props e n st = Nat.iter n togglePasswordVisibility st.
Proof.
  intros T. induction n as [|n IH]; intros st; [reflexivity|].
  cbn [clicks]. rewrite IH. unfold rightSlotClick. rewrite T. cbn [InputType_eqb fst].
  rewrite Nat.iter_succ. apply Nat.iter_swap.
Qed.

Example demo_password_classes :
  inputClasses demo_password
  = js "transition-all duration-200 focus:outline-none text-black placeholder-gray-400 disabled:opacity-50 disabled:cursor-not-allowed border border-gray-300 bg-white focus:border-indigo-500 focus:ring-2 focus:ring-indigo-200 px-4 py-2 text-sm rounded-lg pr-10".
Proof. vm_compute. reflexivity. Qed.

(** C5: from the initial interaction state an even number of toggles gives
    the masked kind and an odd number gives plain text, in [Input] (for a
    password field, where a click on the trailing slot is the toggle) and in
    [PasswordInput]; the kind is a function of the toggle cell alone. *)
Theorem visibility_toggle_parity (props : InputProps) (e : Event) (n : nat) :
  type props = Password ->
  actualType props (Nat.iter n togglePasswordVisibility initial)
    = (if Nat.even n then Password else Text)
  /\ type_attribute (renderInput props (clicks props e n initial))
    = Some (if Nat.even n then Password else Text)
  /\ PasswordInput.renderedType
       (Nat.iter n PasswordInput.togglePasswordVisibility PasswordInput.initial)
    = (if Nat.even n then Password else Text)
  /\ (forall st st' : InteractionState,
        showPassword st = showPassword st' ->
        actualType props st = actualType props st')
  /\ (forall st : InteractionState,
        rightSlotClick props e st = (togglePasswordVisibility st, [])).
Proof.
  intros T.
  assert (A : actualType props (Nat.iter n togglePasswordVisibility initial)
              = (if Nat.even n then Password else Text)).
  { unfold actualType. rewrite T, toggle_iter. simpl.
    destruct (Nat.even n); reflexivity. }
  split; [exact A|]. split.
  { rewrite (clicks_iter props e n T). unfold renderInput, isTextareaProps.
    rewrite T. cbn [InputType_eqb type_attribute]. now rewrite A. }
  split.
  { unfold PasswordInput.renderedType. rewrite password_toggle_iter. simpl.
    destruct (Nat.even n); reflexivity. }
  split.
  { intros st st' E. unfold actualType. now rewrite E. }
  intros st. unfold rightSlotClick. now rewrite T.
Qed.

Lemma visibility_toggle_parity_witness :
  type demo_password = Password /\
  actualType demo_password (Nat.iter 3 togglePasswordVisibility initial) = Text.
Proof.
  split; [reflexivity|].
  exact (proj1 (visibility_toggle_parity demo_password (EventRef 0) 3 eq_refl)).
Defined.

(** C7: [renderInput] gives a single-line control for every configuration
    whose kind is not the multi-line tag (password included) and a
    multi-line control for every configuration with the multi-line tag,
    whatever the other properties and the interaction state are. *)
Theorem kind_dispatch (props : InputProps) (st : InteractionState) :
  (type props = Textarea ->
     is_multi_line (renderInput props st) = true
     /\ is_single_line (renderInput props st) = false)
  /\ (type props <> Textarea ->
        is_single_line (renderInput props st) = true
        /\ is_multi_line (renderInput props st) = false
        /\ type_attribute (renderInput props st) = Some (actualType props st)).
Proof.
  unfold renderInput. split; intros T.
  - apply isTextareaProps_iff in T. rewrite T. split; reflexivity.
  - destruct (isTextareaProps props) eqn:E.
    + apply isTextareaProps_iff in E. contradiction.
    + repeat split.
Qed.

Lemma kind_dispatch_witness :
  (type (bare Textarea) = Textarea /\
   is_multi_line (renderInput (bare Textarea) initial) = true)
  /\ (type demo_password <> Textarea /\
      is_single_line (renderInput demo_password initial) = true).
Proof.
  split.
  - split; [reflexivity|].
    exact (proj1 (proj1 (kind_dispatch (bare Textarea) initial) eq_refl)).
  - split; [discriminate|].
    apply (proj2 (kind_dispatch demo_password initial)). discriminate.
Defined.

End InputFacts.

(** ** The action control *)

Section ButtonFacts.
Import Button.

(** C9: when the disabled flag or the loading flag is set, a click calls no
    handler, whether one was supplied or not; when loading, the children of
    the button are the spinner and the content, so that no decoration is
    rendered and the spinner stands where the leading one would be. *)
Theorem button_click_gating (props : ButtonProps) (event : Event) :
  (default false (disabled props) = true \/ default false (loading props) = true ->
     handleClick props event = [])
  /\ (default false (loading props) = true ->
        el_children (render props) = [LoadingSpinner; Content (children props)])
  /\ (default false (loading props) = false ->
        forall icon, leftIcon props = Some icon ->
        exists others,
          el_children (render props)
          = LeftIconSpan icon :: Content (children props) :: others).
Proof.
  split; [|split].
  - unfold handleClick. intros [D | L]; rewrite ?D, ?L; simpl.
    + reflexivity.
    + now rewrite andb_false_r.
  - intros L. unfold render. rewrite L. reflexivity.
  - intros L icon I. unfold render. rewrite L, I. simpl. eauto.
Qed.

Lemma button_click_gating_witness :
  (default false (disabled busy_button) = true
   \/ default false (loading busy_button) = true)
  /\ handleClick busy_button (EventRef 0) = []
  /\ el_children (render busy_button) = [LoadingSpinner; Content (NodeRef 0)].
Proof.
  split; [right; reflexivity|]. split.
  - apply (proj1 (button_click_gating busy_button (EventRef 0))).
    right. reflexivity.
  - apply (proj1 (proj2 (button_click_gating busy_button (EventRef 0)))).
    reflexivity.
Defined.

End ButtonFacts.

(** ** The form pages *)

Section FormFacts.
Import JsString Regex.

Ltac branches :=
  repeat match goal with
  | |- context [if negb ?b then _ else _] => destruct b eqn:?; cbn [negb]
  | |- context [if (?a <? ?c)%nat then _ else _] => destruct (a <? c)%nat eqn:?
  end.

(** The email pattern matches when the string has a non-empty run without
    white space, then [@], then such a run, then a full stop, then such a
    run. *)
Lemma email_re_spec (s : list N) :
  test email_re s = true <->
  exists pre a b c post,
    s = pre ++ a ++ js "@" ++ b ++ js "." ++ c ++ post
    /\ a <> [] /\ b <> [] /\ c <> []
    /\ forallb non_space a = true /\ forallb non_space b = true
    /\ forallb non_space c = true.
Proof.
  rewrite test_spec. unfold email_re. split.
  - intros (pre & s1 & post & -> & M).
    inversion M as [ | | | |r1 r2 x0 x1 x2 Ma M1| ]; subst; clear M.
    inversion M1 as [ | | | |r1 r2 y0 y1 y2 Mat M2| ]; subst; clear M1.
    inversion M2 as [ | | | |r1 r2 z0 z1 z2 Mb M3| ]; subst; clear M2.
    inversion M3 as [ | | | |r1 r2 w0 w1 w2 Mdot Mc| ]; subst; clear M3.
    inversion Mat as [p0 c0 t0 At| | | | | ]; subst; clear Mat.
    inversion Mdot as [p0 c1 t1 Dot| | | | | ]; subst; clear Mdot.
    apply N.eqb_eq in At, Dot. subst c0 c1.
    apply matches_plus in Ma, Mb, Mc.
    destruct Ma as (a & Na & Ea & Fa), Mb as (b & Nb & Eb & Fb),
      Mc as (c & Nc & Ec & Fc). subst.
    exists pre, a, b, c, post. repeat split; assumption.
  - intros (pre & a & b & c & post & -> & Na & Nb & Nc & Fa & Fb & Fc).
    exists pre, (a ++ js "@" ++ b ++ js "." ++ c ++ post), post.
    split; [reflexivity|].
    apply m_cat with (js "@" ++ b ++ js "." ++ c ++ post).
    { apply matches_plus. now exists a. }
    apply m_cat with (b ++ js "." ++ c ++ post).
    { now constructor. }
    apply m_cat with (js "." ++ c ++ post).
    { apply matches_plus. now exists b. }
    apply m_cat with (c ++ post).
    { now constructor. }
    apply matches_plus. now exists c.
Qed.

(** A string that matches the email pattern is not blank. *)
Lemma email_match_not_blank (s : list N) :
  test email_re s = true -> nonempty (trim s) = true.
Proof.
  rewrite email_re_spec, nonempty_trim.
  intros (pre & a & b & c & post & -> & Na & _ & _ & Fa & _).
  rewrite existsb_app, existsb_app. destruct a as [|x a]; [congruence|].
  simpl in *. apply andb_true_iff in Fa. destruct Fa as [-> _].
  simpl. apply orb_true_r.
Qed.

(** What the validators compute, entry by entry. *)
Lemma signin_submit (st : FormState) (email password : list N) :
  formData st !! "email" = Some email ->
  formData st !! "password" = Some password ->
  exists errs,
    Signin.handleSubmit st
    = Some ({| formData := formData st; errors := errs |},
            if no_keys errs then [SigninSuccess (formData st)] else [])
    /\ errs !! "email"
       = (if negb (nonempty (trim email)) then Some (js "Email is required")
          else if negb (test email_re email) then Some (js "Invalid email")
          else None)
    /\ errs !! "password"
       = (if negb (nonempty (trim password)) then Some (js "Password is required")
          else None).
Proof.
  intros E P. unfold Signin.handleSubmit. rewrite E, P. cbn [mbind option_bind].
  eexists. split; [reflexivity|].
  split; branches; simplify_map_eq; reflexivity.
Qed.

Lemma signup_submit (st : FormState) (name email password : list N) :
  formData st !! "name" = Some name ->
  formData st !! "email" = Some email ->
  formData st !! "password" = Some password ->
  exists errs,
    Signup.handleSubmit st
    = Some ({| formData := formData st; errors := errs |},
            if no_keys errs then [SignupSuccess (formData st)] else [])
    /\ errs !! "name"
       = (if negb (nonempty (trim name)) then Some (js "Name is required")
          else None)
    /\ errs !! "email"
       = (if negb (nonempty (trim email)) then Some (js "Email is required")
          else if negb (test email_re email) then Some (js "Invalid email")
          else None)
    /\ errs !! "password"
       = (if negb (nonempty (trim password)) then Some (js "Password is required")
          else if (length password <? 6)%nat then Some (js "Min 6 characters")
          else None).
Proof.
  intros Nm E P. unfold Signup.handleSubmit. rewrite Nm, E, P.
  cbn [mbind option_bind].
  eexists. split; [reflexivity|].
  repeat split; branches; simplify_map_eq; reflexivity.
Qed.

Lemma demo_validate (st : FormState) (name email password : list N) :
  formData st !! "name" = Some name ->
  formData st !! "email" = Some email ->
  formData st !! "password" = Some password ->
  exists errs,
    InputDemo.validateForm st = Some {| formData := formData st; errors := errs |}
    /\ errs !! "name"
       = (if negb (nonempty (trim name)) then Some (js "Name is required")
          else None)
    /\ errs !! "email"
       = (if negb (nonempty (trim email)) then Some (js "Email is required")
          else if negb (test email_re email)
          then Some (js "Please enter a valid email")
          else None)
    /\ errs !! "password"
       = (if negb (nonempty (trim password)) then Some (js "Password is required")
          else if (length password <? 6)%nat
          then Some (js "Password must be at least 6 characters")
          else None).
Proof.
  intros Nm E P. unfold InputDemo.validateForm. rewrite Nm, E, P.
  cbn [mbind option_bind].
  eexists. split; [reflexivity|].
  repeat split; branches; simplify_map_eq; reflexivity.
Qed.

Lemma password_demo_validate (st : FormState) (form : list N) :
  formData st !! "form" = Some form ->
  exists errs,
    PasswordInputDemo.validatePasswords st
    = Some {| formData := formData st; errors := errs |}
    /\ errs !! "form"
       = (if negb (nonempty (trim form)) then Some (js "Password is required")
          else if (length form <? 8)%nat
          then Some (js "Password must be at least 8 characters")
          else if negb (test mixed_re form)
          then Some (js "Password must contain uppercase, lowercase, and numbers")
          else None).
Proof.
  intros F. unfold PasswordInputDemo.validatePasswords. rewrite F.
  cbn [mbind option_bind].
  eexists. split; [reflexivity|].
  branches; simplify_map_eq; reflexivity.
Qed.

(** The change handlers keep the keys of the form data, so a submission
    of the sign-up form always runs to its end. *)
Lemma signup_keys (events : list (string * list N)) (st : FormState) (k : string) :
  is_Some (formData st !! k) ->
  is_Some (formData (fold_left
                       (fun st ev => Signup.handleChange (fst ev) (snd ev) st)
                       events st) !! k).
Proof.
  revert st. induction events as [|[f v] events IH]; intros st K; [exact K|].
  simpl. apply IH. unfold Signup.handleChange. cbn [formData].
  rewrite lookup_insert. case_decide; [eauto | exact K].
Qed.

Lemma signup_submit_defined (events : list (string * list N)) :
  is_Some (Signup.handleSubmit (signup_after events)).
Proof.
  unfold signup_after.
  destruct (signup_keys events Signup.initial "name") as [n Hn]; [now eexists|].
  destruct (signup_keys events Signup.initial "email") as [e He]; [now eexists|].
  destruct (signup_keys events Signup.initial "password") as [p Hp]; [now eexists|].
  destruct (signup_submit _ n e p Hn He Hp) as (errs & -> & _). eauto.
Qed.

Example signup_short_password :
  Signup.handleSubmit (signup_after [("password", js "abc")])
  = Some ({| formData := formData (signup_after [("password", js "abc")]);
             errors := <["password" := js "Min 6 characters"]>
                         (<["email" := js "Email is required"]>
                            (<["name" := js "Name is required"]> ∅)) |},
          []).
Proof. vm_compute. reflexivity. Qed.

(** C8: the email check accepts [john@example.com] and rejects [john];
    the validators of the sign-in form and of the demo form leave the email
    without an error exactly when the value matches the pattern, that is
    when it contains characters other than white space, [@], such
    characters, a full stop and such characters. *)
Theorem email_shape_check :
  test email_re (js "john@example.com") = true
  /\ test email_re (js "john") = false
  /\ (forall (st : FormState) (email password : list N),
        formData st !! "email" = Some email ->
        formData st !! "password" = Some password ->
        exists st' log,
          Signin.handleSubmit st = Some (st', log)
          /\ (errors st' !! "email" = None <-> test email_re email = true))
  /\ (forall (st : FormState) (name email password : list N),
        formData st !! "name" = Some name ->
        formData st !! "email" = Some email ->
        formData st !! "password" = Some password ->
        exists st',
          InputDemo.validateForm st = Some st'
          /\ (errors st' !! "email" = None <-> test email_re email = true))
  /\ (forall s : list N,
        test email_re s = true <->
        exists pre a b c post,
          s = pre ++ a ++ js "@" ++ b ++ js "." ++ c ++ post
          /\ a <> [] /\ b <> [] /\ c <> []
          /\ forallb non_space a = true /\ forallb non_space b = true
          /\ forallb non_space c = true).
Proof.
  split; [vm_compute; reflexivity|]. split; [vm_compute; reflexivity|].
  split; [|split; [|exact email_re_spec]].
  - intros st email password E P.
    destruct (signin_submit st email password E P) as (errs & Hs & He & _).
    eexists _, _. split; [exact Hs|]. cbn [errors]. rewrite He.
    pose proof (email_match_not_blank email) as NB.
    destruct (test email_re email); [rewrite NB by reflexivity|];
      branches; simpl; split; congruence.
  - intros st name email password Nm E P.
    destruct (demo_validate st name email password Nm E P)
      as (errs & Hs & _ & He & _).
    eexists. split; [exact Hs|]. cbn [errors]. rewrite He.
    pose proof (email_match_not_blank email) as NB.
    destruct (test email_re email); [rewrite NB by reflexivity|];
      branches; simpl; split; congruence.
Qed.

Lemma email_shape_check_witness :
  formData (signin_form (js "john@example.com") (js "secret")) !! "email"
  = Some (js "john@example.com")
  /\ formData (signin_form (js "john@example.com") (js "secret")) !! "password"
     = Some (js "secret")
  /\ exists st' log,
       Signin.handleSubmit (signin_form (js "john@example.com") (js "secret"))
       = Some (st', log)
       /\ (errors st' !! "email" = None
           <-> test email_re (js "john@example.com") = true).
Proof.
  split; [reflexivity|]. split; [reflexivity|].
  apply (proj1 (proj2 (proj2 email_shape_check))
           (signin_form (js "john@example.com") (js "secret")) _ (js "secret"));
    reflexivity.
Defined.

(** C6: submitting the sign-up form with an empty name, an empty email and
    a password of three characters that is not blank gives an error
    dictionary of exactly three entries, for name, email and password, and
    logs no success. *)
Theorem signup_three_errors (st : FormState) (password : list N) :
  formData st !! "name" = Some [] ->
  formData st !! "email" = Some [] ->
  formData st !! "password" = Some password ->
  length password = 3%nat ->
  nonempty (trim password) = true ->
  exists st',
    Signup.handleSubmit st = Some (st', [])
    /\ formData st' = formData st
    /\ errors st'
       = <["password" := js "Min 6 characters"]>
           (<["email" := js "Email is required"]>
              (<["name" := js "Name is required"]> ∅))
    /\ size (errors st') = 3%nat
    /\ dom (errors st') = {[ "name"; "email"; "password" ]}.
Proof.
  intros Nm E P L NB. unfold Signup.handleSubmit. rewrite Nm, E, P.
  cbn [mbind option_bind]. rewrite NB, L.
  change (nonempty (trim [])) with false. cbn [negb].
  change (3 <? 6)%nat with true. cbv iota.
  eexists. split; [reflexivity|]. cbn [formData errors].
  split; [reflexivity|]. split; [reflexivity|].
  split; [vm_compute; reflexivity|].
  rewrite !dom_insert_L, dom_empty_L. set_solver.
Qed.

Lemma signup_three_errors_witness :
  formData (signup_form [] [] (js "abc")) !! "name" = Some []
  /\ formData (signup_form [] [] (js "abc")) !! "email" = Some []
  /\ formData (signup_form [] [] (js "abc")) !! "password" = Some (js "abc")
  /\ length (js "abc") = 3%nat
  /\ nonempty (trim (js "abc")) = true
  /\ exists st',
       Signup.handleSubmit (signup_form [] [] (js "abc")) = Some (st', [])
       /\ formData st' = formData (signup_form [] [] (js "abc"))
       /\ errors st'
          = <["password" := js "Min 6 characters"]>
              (<["email" := js "Email is required"]>
                 (<["name" := js "Name is required"]> ∅))
       /\ size (errors st') = 3%nat
       /\ dom (errors st') = {[ "name"; "email"; "password" ]}.
Proof.
  do 5 (split; [reflexivity|]).
  apply (signup_three_errors (signup_form [] [] (js "abc")) (js "abc"));
    reflexivity.
Defined.

(** C2: when a field has an error, a change event on that field, whatever
    the new value is, makes its entry the empty string, which is no error;
    the other entries are kept as they are and no rule is evaluated.  This
    holds for the change handler of each of the four pages. *)
Theorem change_clears_error (field : string) (value : list N) (st : FormState) :
  truthy (errors st !! field) = true ->
  clears field value st (Signin.handleChange field value st)
  /\ clears field value st (Signup.handleChange field value st)
  /\ clears field value st (InputDemo.handleInputChange field value st)
  /\ clears field value st (PasswordInputDemo.handlePasswordChange field value st).
Proof.
  intros T.
  assert (C : clears field value st
                {| formData := <[field := value]> (formData st);
                   errors := <[field := []]> (errors st) |}).
  { unfold clears. cbn [formData errors]. split; [reflexivity|].
    split; [now rewrite lookup_insert_eq|]. split; [|reflexivity].
    intros other NE. now rewrite lookup_insert_ne. }
  unfold Signin.handleChange, Signup.handleChange, InputDemo.handleInputChange,
    PasswordInputDemo.handlePasswordChange.
  rewrite T. repeat split; apply C.
Qed.

Lemma change_clears_error_witness :
  truthy (errors signin_rejected !! "email") = true
  /\ clears "email" (js "john@") signin_rejected
       (Signin.handleChange "email" (js "john@") signin_rejected).
Proof.
  split; [reflexivity|].
  apply (change_clears_error "email" (js "john@") signin_rejected). reflexivity.
Defined.

(** C1, as the code has it: the sign-up form and the demo form reject a
    password that is not blank and shorter than 6 characters with their
    too-short message and accept the length from 6 characters on (so 5
    fails and 6 passes); the sign-in form has no minimum length and gives no
    password error for any password that is not blank; the form of the
    strength meter page uses a minimum of 8 characters. *)
Theorem password_minimum_length (password : list N) :
  nonempty (trim password) = true ->
  (forall (st : FormState) (name email : list N),
     formData st !! "name" = Some name ->
     formData st !! "email" = Some email ->
     formData st !! "password" = Some password ->
     exists st' log,
       Signup.handleSubmit st = Some (st', log)
       /\ ((length password < 6)%nat ->
             errors st' !! "password" = Some (js "Min 6 characters"))
       /\ ((6 <= length password)%nat -> errors st' !! "password" = None))
  /\ (forall (st : FormState) (name email : list N),
        formData st !! "name" = Some name ->
        formData st !! "email" = Some email ->
        formData st !! "password" = Some password ->
        exists st',
          InputDemo.validateForm st = Some st'
          /\ ((length password < 6)%nat ->
                errors st' !! "password"
                = Some (js "Password must be at least 6 characters"))
          /\ ((6 <= length password)%nat -> errors st' !! "password" = None))
  /\ (forall (st : FormState) (email : list N),
        formData st !! "email" = Some email ->
        formData st !! "password" = Some password ->
        exists st' log,
          Signin.handleSubmit st = Some (st', log)
          /\ errors st' !! "password" = None)
  /\ (forall st : FormState,
        formData st !! "form" = Some password ->
        exists st',
          PasswordInputDemo.validatePasswords st = Some st'
          /\ ((length password < 8)%nat ->
                errors st' !! "form"
                = Some (js "Password must be at least 8 characters"))
          /\ ((8 <= length password)%nat ->
                errors st' !! "form"
                <> Some (js "Password must be at least 8 characters"))).
Proof.
  intros NB. split; [|split; [|split]].
  - intros st name email Nm E P.
    destruct (signup_submit st name email password Nm E P)
      as (errs & Hs & _ & _ & Hp).
    eexists _, _. split; [exact Hs|]. cbn [errors]. rewrite Hp, NB. cbn [negb].
    destruct (Nat.ltb_spec (length password) 6); split; intros; lia || reflexivity.
  - intros st name email Nm E P.
    destruct (demo_validate st name email password Nm E P)
      as (errs & Hs & _ & _ & Hp).
    eexists. split; [exact Hs|]. cbn [errors]. rewrite Hp, NB. cbn [negb].
    destruct (Nat.ltb_spec (length password) 6); split; intros; lia || reflexivity.
  - intros st email E P.
    destruct (signin_submit st email password E P) as (errs & Hs & _ & Hp).
    eexists _, _. split; [exact Hs|]. cbn [errors]. now rewrite Hp, NB.
  - intros st F.
    destruct (password_demo_validate st password F) as (errs & Hs & Hp).
    eexists. split; [exact Hs|]. cbn [errors]. rewrite Hp, NB. cbn [negb].
    destruct (Nat.ltb_spec (length password) 8); split; intros; try lia;
      try reflexivity.
    destruct (test mixed_re password); cbn [negb]; intros X; discriminate X.
Qed.

Lemma password_minimum_length_witness :
  nonempty (trim (js "abcde")) = true
  /\ exists st' log,
       Signup.handleSubmit (signup_form (js "John") (js "john@example.com") (js "abcde"))
       = Some (st', log)
       /\ ((length (js "abcde") < 6)%nat ->
             errors st' !! "password" = Some (js "Min 6 characters"))
       /\ ((6 <= length (js "abcde"))%nat -> errors st' !! "password" = None).
Proof.
  split; [reflexivity|].
  apply (proj1 (password_minimum_length (js "abcde") eq_refl)
           (signup_form (js "John") (js "john@example.com") (js "abcde"))
           (js "John") (js "john@example.com")); reflexivity.
Defined.

(** C1 as stated fails on the sign-in form: a password of length 5 that is
    not blank gets no error there, and the submission is logged as a
    success. *)
Lemma signin_has_no_minimum_length :
  length (js "abcde") = 5%nat
  /\ nonempty (trim (js "abcde")) = true
  /\ exists st',
       Signin.handleSubmit (signin_form (js "john@example.com") (js "abcde"))
       = Some (st', [SigninSuccess
                       (formData (signin_form (js "john@example.com") (js "abcde")))])
       /\ errors st' !! "password" = None
       /\ errors st' = ∅.
Proof.
  split; [reflexivity|]. split; [reflexivity|].
  eexists. split; [vm_compute; reflexivity|]. split; reflexivity.
Qed.

End FormFacts.

(** ** Class attributes *)

Section ClassFacts.
Import JsString.

Lemma words_spaces (ws b : list N) :
  forallb is_space ws = true -> words (ws ++ b) = words b.
Proof.
  induction ws as [|c ws IH]; simpl; [reflexivity|].
  intros H. apply andb_true_iff in H. destruct H as [-> H]. now apply IH.
Qed.

Lemma starts_word_words (s : list N) :
  starts_word s = true -> exists w ws, words s = w :: ws.
Proof.
  destruct s as [|c s]; simpl; [discriminate|]. unfold non_space.
  destruct (is_space c); simpl; [discriminate|]. intros _.
  destruct (starts_word s); [destruct (words s)|]; eauto.
Qed.

Lemma starts_word_app_space (a b : list N) (c : N) :
  is_space c = true -> starts_word (a ++ c :: b) = starts_word a.
Proof.
  intros S. destruct a; simpl; [|reflexivity]. unfold non_space. now rewrite S.
Qed.

(** A white space character between two strings separates their words. *)
Lemma words_app_space (a b : list N) (c : N) :
  is_space c = true -> words (a ++ c :: b) = words a ++ words b.
Proof.
  intros S. induction a as [|x a IH]; simpl.
  - now rewrite S.
  - destruct (is_space x); [exact IH|].
    rewrite (starts_word_app_space a b c S), IH.
    destruct (starts_word a) eqn:W; [|reflexivity].
    destruct (starts_word_words a W) as (w & ws & ->). reflexivity.
Qed.

Lemma words_sep (a r : list N) :
  words (a ++ Input.sep ++ r) = words a ++ words r.
Proof.
  unfold Input.sep. cbn [app]. rewrite words_app_space by reflexivity.
  f_equal.
Qed.

Lemma words_lead (r : list N) : words (Input.sep ++ r) = words r.
Proof. reflexivity. Qed.

Lemma words_last (a : list N) : words (a ++ Input.last_sep) = words a.
Proof.
  unfold Input.last_sep. rewrite words_app_space by reflexivity.
  simpl. apply app_nil_r.
Qed.

Lemma words_all_spaces (ws : list N) :
  forallb is_space ws = true -> words ws = [].
Proof. intros H. rewrite <- (app_nil_r ws). now rewrite words_spaces. Qed.

Lemma words_trailing_spaces (a ws : list N) :
  forallb is_space ws = true -> words (a ++ ws) = words a.
Proof.
  destruct ws as [|c ws]; simpl; [now rewrite app_nil_r|].
  intros H. apply andb_true_iff in H. destruct H as [C H].
  rewrite words_app_space by exact C.
  rewrite (words_all_spaces ws H). apply app_nil_r.
Qed.

Lemma trimStart_split (t : list N) :
  exists ws, t = ws ++ trimStart t /\ forallb is_space ws = true.
Proof.
  induction t as [|c t (ws & E & F)]; simpl; [now exists []|].
  destruct (is_space c) eqn:S.
  - exists (c :: ws). simpl. rewrite S, F. split; [now f_equal | reflexivity].
  - now exists [].
Qed.

Lemma trimStart_head (t : list N) (c : N) (y : list N) :
  trimStart t = c :: y -> is_space c = false.
Proof.
  induction t as [|x t IH]; simpl; [discriminate|].
  destruct (is_space x) eqn:S; [exact IH|]. intros E. now injection E as <- _.
Qed.

Lemma trimStart_snoc (x : list N) (c : N) :
  is_space c = false -> trimStart (x ++ [c]) = trimStart x ++ [c].
Proof.
  intros S. induction x as [|d x IH]; simpl; [now rewrite S|].
  destruct (is_space d); [exact IH | reflexivity].
Qed.

Lemma trimEnd_cons (c : N) (y : list N) :
  is_space c = false -> trimEnd (c :: y) = c :: trimEnd y.
Proof.
  intros S. unfold trimEnd. simpl. rewrite (trimStart_snoc _ _ S).
  rewrite rev_app_distr. reflexivity.
Qed.

Lemma no_trailing_snoc (z : list N) (c : N) :
  no_trailing (z ++ [c]) = non_space c.
Proof.
  induction z as [|d z IH]; [reflexivity|].
  change ((d :: z) ++ [c]) with (d :: (z ++ [c])).
  destruct z as [|e z]; [reflexivity|]. exact IH.
Qed.

Lemma no_trailing_trimEnd (u : list N) : no_trailing (trimEnd u) = true.
Proof.
  unfold trimEnd. destruct (trimStart (rev u)) as [|c y] eqn:E; [reflexivity|].
  simpl. rewrite no_trailing_snoc. unfold non_space.
  now rewrite (trimStart_head _ _ _ E).
Qed.

Lemma words_trim (s : list N) : words (trim s) = words s.
Proof.
  unfold trim.
  destruct (trimStart_split s) as (ws & E & F).
  rewrite E at 2. rewrite (words_spaces ws _ F).
  set (u := trimStart s).
  destruct (trimStart_split (rev u)) as (ws' & E' & F').
  assert (U : u = trimEnd u ++ rev ws').
  { unfold trimEnd. rewrite <- rev_app_distr, <- E'. symmetry. apply rev_involutive. }
  rewrite U at 2. rewrite words_trailing_spaces; [reflexivity|].
  now rewrite forallb_rev.
Qed.

Lemma trim_starts_word (s : list N) :
  trim s = [] \/ starts_word (trim s) = true.
Proof.
  unfold trim. destruct (trimStart s) as [|c y] eqn:E; [now left|].
  right. pose proof (trimStart_head _ _ _ E) as S.
  rewrite (trimEnd_cons c y S). simpl. unfold non_space. now rewrite S.
Qed.

Lemma words_nonempty (u : list N) :
  no_trailing u = true -> u <> [] -> words u <> [].
Proof.
  induction u as [|c u IH]; [congruence|]. intros T _.
  destruct u as [|d u].
  - simpl in *. unfold non_space in T. destruct (is_space c); discriminate.
  - assert (W : words (d :: u) <> []) by (apply IH; [exact T | discriminate]).
    change (words (c :: d :: u)) with
      (if is_space c then words (d :: u)
       else if starts_word (d :: u)
            then match words (d :: u) with
                 | w :: ws => (c :: w) :: ws
                 | [] => [[c]]
                 end
            else [c] :: words (d :: u)).
    destruct (is_space c); [exact W|].
    destruct (starts_word (d :: u)); [destruct (words (d :: u))|]; discriminate.
Qed.

(** On a string without trailing white space, collapsing the runs of white
    space gives the words joined by single spaces, after one space when the
    string starts with white space. *)
Lemma collapse_no_trailing (u : list N) :
  no_trailing u = true ->
  collapse_from true u = join (words u)
  /\ collapse_from false u
     = (if starts_word u then [] else match u with [] => [] | _ => [0x20] end)
       ++ join (words u).
Proof.
  induction u as [|c u IH]; [now split|]. intros T.
  assert (Tu : no_trailing u = true) by (destruct u; [reflexivity | exact T]).
  destruct (IH Tu) as [IHt IHf]. clear IH.
  cbn [collapse_from starts_word words]. unfold non_space.
  destruct (is_space c) eqn:S; cbn [negb].
  - destruct u as [|d u].
    { simpl in T. unfold non_space in T. rewrite S in T. discriminate. }
    rewrite IHt. split; reflexivity.
  - assert (E : c :: collapse_from false u
                = join (if starts_word u
                        then match words u with
                             | w :: ws => (c :: w) :: ws
                             | [] => [[c]]
                             end
                        else [c] :: words u)).
    { rewrite IHf. destruct (starts_word u) eqn:W.
      - destruct (starts_word_words u W) as (w & ws & ->).
        destruct ws; reflexivity.
      - destruct u as [|d u]; [reflexivity|].
        pose proof (words_nonempty (d :: u) Tu) as NE.
        destruct (words (d :: u)); [now exfalso; apply NE|]. reflexivity. }
    split; exact E.
Qed.

(** [s.trim().replace(/\s+/g, ' ')] is the words of [s] joined by single
    spaces. *)
Lemma collapse_trim_join (s : list N) :
  collapse_spaces (trim s) = join (words s).
Proof.
  unfold collapse_spaces.
  assert (T : no_trailing (trim s) = true) by apply no_trailing_trimEnd.
  destruct (collapse_no_trailing (trim s) T) as [_ ->].
  rewrite words_trim.
  destruct (trim_starts_word s) as [-> | ->]; reflexivity.
Qed.

End ClassFacts.

(** ** Composition of the class attributes *)

Section ClassAttributes.
Import JsString.

(** The class attribute of [Input] is the class names of the base styles,
    of the variant, of the size, then [w-full], the error block, [pl-10]
    and [pr-10] when their conditions hold, then the caller's class names,
    separated by single spaces. *)
Theorem input_class_attribute (props : Input.InputProps) :
  Input.inputClasses props =
  join (words Input.baseStyles
        ++ words (Input.variants (default Input.Default (Input.variant props)))
        ++ words (Input.sizes (default Input.Md (Input.size props)))
        ++ (if default false (Input.fullWidth props) then [js "w-full"] else [])
        ++ (if truthy (Input.error props)
            then [js "border-red-500"; js "focus:border-red-500";
                  js "focus:ring-red-200"]
            else [])
        ++ (if present (Input.leftIcon props) then [js "pl-10"] else [])
        ++ (if present (Input.rightIcon props)
               || Input.InputType_eqb (Input.type props) Input.Password
            then [js "pr-10"] else [])
        ++ words (default [] (Input.className props))).
Proof.
  unfold Input.inputClasses. rewrite collapse_trim_join. f_equal.
  rewrite words_lead, !words_sep, words_last.
  repeat f_equal.
  - now destruct (default false (Input.fullWidth props)).
  - now destruct (truthy (Input.error props)).
  - now destruct (present (Input.leftIcon props)).
  - now destruct (present (Input.rightIcon props)
                  || Input.InputType_eqb (Input.type props) Input.Password).
Qed.

(** The class attribute of [Button]: base styles, variant, size, [w-full]
    when full width, then the caller's class names. *)
Theorem button_class_attribute (props : Button.ButtonProps) :
  Button.buttonClasses props =
  join (words Button.baseStyles
        ++ words (Button.variants (default Button.Primary (Button.variant props)))
        ++ words (Button.sizes (default Button.Md (Button.size props)))
        ++ (if default false (Button.fullWidth props) then [js "w-full"] else [])
        ++ words (default [] (Button.className props))).
Proof.
  unfold Button.buttonClasses. rewrite collapse_trim_join. f_equal.
  rewrite words_lead, !words_sep, words_last.
  repeat f_equal.
  now destruct (default false (Button.fullWidth props)).
Qed.

(** The class attribute of [PasswordInput]: as for [Input], with [pr-10]
    in every case, and base styles that are themselves six class names
    joined by single spaces. *)
Theorem password_class_attribute (props : PasswordInputRender.PasswordInputProps) :
  PasswordInputRender.baseStyles
  = join [js "transition-all"; js "duration-200"; js "focus:outline-none";
          js "text-gray-900"; js "placeholder-gray-400";
          js "disabled:opacity-50"; js "disabled:cursor-not-allowed"]
  /\ PasswordInputRender.inputClasses props =
     join (words PasswordInputRender.baseStyles
           ++ words (PasswordInputRender.variants
                       (default Input.Default (PasswordInputRender.variant props)))
           ++ words (PasswordInputRender.sizes
                       (default Input.Md (PasswordInputRender.size props)))
           ++ (if default false (PasswordInputRender.fullWidth props)
               then [js "w-full"] else [])
           ++ (if truthy (PasswordInputRender.error props)
               then [js "border-red-500"; js "focus:border-red-500";
                     js "focus:ring-red-200"]
               else [])
           ++ (if present (PasswordInputRender.leftIcon props)
               then [js "pl-10"] else [])
           ++ [js "pr-10"]
           ++ words (default [] (PasswordInputRender.className props))).
Proof.
  split; [vm_compute; reflexivity|].
  unfold PasswordInputRender.inputClasses. rewrite collapse_trim_join. f_equal.
  rewrite words_lead, !words_sep, words_last.
  repeat f_equal.
  - now destruct (default false (PasswordInputRender.fullWidth props)).
  - now destruct (truthy (PasswordInputRender.error props)).
  - now destruct (present (PasswordInputRender.leftIcon props)).
Qed.

End ClassAttributes.

(** ** More on the components *)

Section ComponentFacts.
Import JsString.

Lemma total_floor (password : list N) :
  password <> [] -> (15 <= total password)%Z.
Proof.
  intros NE. pose proof (some_class password NE) as S.
  unfold total, contribution.
  destruct (satisfies LengthAtLeast8 password),
    (satisfies LengthAtLeast12 password),
    (satisfies HasLowercase password), (satisfies HasUppercase password),
    (satisfies HasDigit password), (satisfies HasSymbol password);
    simpl in *; try lia; discriminate S.
Qed.

Lemma nonempty_iff (s : list N) : nonempty s = true <-> s <> [].
Proof. destruct s; simpl; split; congruence. Qed.

(** The strength meter is rendered exactly when it is requested and the
    value is a non-empty string.  When it is rendered, the label, the score
    and the width of the bar are those of the estimator, the width is
    between 15 and 100 per cent, and the colour of the label line is the
    colour of the bar: red for Weak, yellow for Fair, blue for Good and
    green for Strong only. *)
Theorem strength_meter_display (props : PasswordInputRender.PasswordInputProps) :
  (PasswordInputRender.renderMeter props = None <->
   default false (PasswordInputRender.showStrengthMeter props) = false
   \/ PasswordInputRender.passwordValue props = [])
  /\ forall m : PasswordInputRender.MeterEl,
      PasswordInputRender.renderMeter props = Some m ->
      let s := PasswordInput.calculatePasswordStrength
                 (PasswordInputRender.passwordValue props) in
      let line := PasswordInputRender.helperSizes
                    (default Input.Md (PasswordInputRender.size props))
                  ++ js " font-medium " in
      let bar := js "h-2 rounded-full transition-all duration-300 " in
      PasswordInputRender.meter_label m = Some (PasswordInput.label s)
      /\ PasswordInputRender.meter_score m = Some (PasswordInput.score s)
      /\ PasswordInputRender.meter_width m = Some (PasswordInput.score s)
      /\ (15 <= PasswordInput.score s <= 100)%Z
      /\ ((PasswordInput.label s = js "Weak"
           /\ PasswordInputRender.meter_label_className m = line ++ js "text-red-600"
           /\ PasswordInputRender.meter_bar_className m = bar ++ js "bg-red-500")
          \/ (PasswordInput.label s = js "Fair"
              /\ PasswordInputRender.meter_label_className m = line ++ js "text-yellow-600"
              /\ PasswordInputRender.meter_bar_className m = bar ++ js "bg-yellow-500")
          \/ (PasswordInput.label s = js "Good"
              /\ PasswordInputRender.meter_label_className m = line ++ js "text-blue-600"
              /\ PasswordInputRender.meter_bar_className m = bar ++ js "bg-blue-500")
          \/ (PasswordInput.label s = js "Strong"
              /\ PasswordInputRender.meter_label_className m = line ++ js "text-green-600"
              /\ PasswordInputRender.meter_bar_className m = bar ++ js "bg-green-500")).
Proof.
  unfold PasswordInputRender.renderMeter, PasswordInputRender.strength,
    PasswordInput.strength.
  destruct (default false (PasswordInputRender.showStrengthMeter props)); cbn [andb].
  2:{ split; [split; [now left | reflexivity] | discriminate]. }
  destruct (PasswordInputRender.passwordValue props) as [|c pv] eqn:V.
  { split; [split; [now right | reflexivity] | discriminate]. }
  cbn [nonempty]. split.
  { split; [discriminate | intros [H | H]; discriminate H]. }
  intros m E. injection E as <-. cbv zeta.
  assert (NE : c :: pv <> []) by discriminate.
  pose proof (total_floor _ NE) as F. pose proof (total_bounds (c :: pv)) as B.
  rewrite (calculate_nonempty _ NE).
  split; [reflexivity|]. split; [reflexivity|]. split; [reflexivity|].
  split; [exact (conj F (proj2 B))|].
  unfold label_of_score.
  destruct (total (c :: pv) <? 30)%Z;
    [left; (split; [|split]); rewrite <- ?app_assoc; reflexivity|].
  destruct (total (c :: pv) <? 60)%Z;
    [right; left; (split; [|split]); rewrite <- ?app_assoc; reflexivity|].
  destruct (total (c :: pv) <? 80)%Z;
    [right; right; left; (split; [|split]); rewrite <- ?app_assoc; reflexivity|].
  right; right; right; (split; [|split]); rewrite <- ?app_assoc; reflexivity.
Qed.

Lemma strength_meter_display_witness :
  PasswordInputRender.renderMeter (meter_props (Some (VString (js "Abcdefg1"))))
  <> None
  /\ exists m,
       PasswordInputRender.renderMeter (meter_props (Some (VString (js "Abcdefg1"))))
       = Some m
       /\ PasswordInputRender.meter_label m = Some (js "Good")
       /\ PasswordInputRender.meter_width m = Some 70%Z.
Proof.
  split; [discriminate|]. eexists. split; [reflexivity|].
  destruct (proj2 (strength_meter_display
                     (meter_props (Some (VString (js "Abcdefg1"))))) _ eq_refl)
    as (L & _ & W & _).
  split; [exact L | exact W].
Defined.

(** A click reaches the caller's handler exactly when the rendered button
    is not disabled, and then once, with the event of the click. *)
Theorem button_click_matches_disabled (props : Button.ButtonProps) (event : Event) :
  Button.handleClick props event
  = (if Button.el_disabled (Button.render props) then []
     else match Button.onClick props with
          | Some handler => [CallWith handler event]
          | None => []
          end)
  /\ (Button.el_disabled (Button.render props) = true <->
      default false (Button.disabled props) = true
      \/ default false (Button.loading props) = true).
Proof.
  unfold Button.handleClick, Button.render. cbn [Button.el_disabled].
  destruct (default false (Button.disabled props)),
    (default false (Button.loading props)), (Button.onClick props);
    simpl; (split; [reflexivity|]); split; auto; intros [H | H]; discriminate H.
Qed.

(** For a password field the trailing slot always holds the eye icon,
    whatever right icon the caller passed; the eye is open exactly when the
    text is shown, and after [n] clicks from the initial state it is open
    exactly when [n] is odd.  For any other kind a click on the trailing
    slot leaves the interaction state as it is. *)
Theorem eye_icon_follows_visibility (props : Input.InputProps) (e : Event) :
  (Input.type props = Input.Password ->
     (forall st,
        Input.rightSlot props st = Some (Input.EyeIcon (Input.showPassword st))
        /\ (Input.showPassword st = true <->
            type_attribute (Input.renderInput props st) = Some Input.Text))
     /\ (forall n,
          Input.rightSlot props (clicks props e n Input.initial)
          = Some (Input.EyeIcon (Nat.odd n))))
  /\ (Input.type props <> Input.Password ->
      forall n st,
        clicks props e n st = st
        /\ Input.rightSlot props st = Input.Decoration <$> Input.rightIcon props).
Proof.
  split.
  - intros T. split.
    + intros st. unfold Input.rightSlot, Input.renderInput, Input.isTextareaProps,
        Input.actualType. rewrite T. cbn [Input.InputType_eqb andb type_attribute].
      split; [reflexivity|]. destruct (Input.showPassword st); split; congruence.
    + intros n. rewrite (clicks_iter props e n T). unfold Input.rightSlot.
      rewrite T. cbn [Input.InputType_eqb]. rewrite toggle_iter.
      rewrite <- Nat.negb_even. simpl. now destruct (Nat.even n).
  - intros T n st. split.
    + revert st. induction n as [|n IH]; intros st; [reflexivity|].
      cbn [clicks]. unfold Input.rightSlotClick.
      destruct (Input.InputType_eqb (Input.type props) Input.Password) eqn:E.
      * destruct (Input.type props); discriminate || contradiction.
      * cbn [fst]. apply IH.
    + unfold Input.rightSlot.
      destruct (Input.InputType_eqb (Input.type props) Input.Password) eqn:E.
      * destruct (Input.type props); discriminate || contradiction.
      * now destruct (Input.rightIcon props).
Qed.

Lemma eye_icon_follows_visibility_witness :
  Input.type demo_password = Input.Password
  /\ Input.rightSlot demo_password (clicks demo_password (EventRef 0) 3 Input.initial)
     = Some (Input.EyeIcon true).
Proof.
  split; [reflexivity|].
  exact (proj2 (proj1 (eye_icon_follows_visibility demo_password (EventRef 0))
                  eq_refl) 3%nat).
Defined.


(** What reaches the DOM element from the remaining properties: a text
    area gets all of them but [rows] and [resize], with [rows] set to the
    given number or 3 and the class name of the resize mode appended; an
    input element gets all of them but [type]. *)
Theorem control_attributes (props : Input.InputProps) (st : Input.InteractionState)
  (k : string) :
  (Input.type props = Input.Textarea ->
     spread_of (Input.renderInput props st) !! k
       = (if decide (k = "rows" \/ k = "resize") then None
          else Input.rest props !! k)
     /\ rows_of (Input.renderInput props st)
        = Some (default 3%Z (Input.rows props))
     /\ class_of (Input.renderInput props st)
        = Input.inputClasses props
          ++ (if default true (Input.resize props) then js " resize-y"
              else js " resize-none"))
  /\ (Input.type props <> Input.Textarea ->
      spread_of (Input.renderInput props st) !! k
        = (if decide (k = "type") then None else Input.rest props !! k)
      /\ rows_of (Input.renderInput props st) = None
      /\ class_of (Input.renderInput props st) = Input.inputClasses props).
Proof.
  unfold Input.renderInput. split; intros T.
  - apply isTextareaProps_iff in T. rewrite T. cbn [spread_of rows_of class_of].
    split; [|split; [reflexivity|]].
    + case_decide as D.
      * destruct D as [-> | ->]; [apply lookup_delete_eq|].
        rewrite lookup_delete_ne by discriminate. apply lookup_delete_eq.
      * rewrite !lookup_delete_ne; [reflexivity | |]; intros <-; apply D; auto.
    + now destruct (default true (Input.resize props)).
  - destruct (Input.isTextareaProps props) eqn:E.
    { apply isTextareaProps_iff in E. contradiction. }
    cbn [spread_of rows_of class_of]. split; [|split; reflexivity].
    rewrite map_lookup_filter. destruct (Input.rest props !! k) as [v|]; simpl.
    + case_decide as D; case_guard; simpl in *; congruence.
    + now case_decide.
Qed.

Lemma control_attributes_witness :
  Input.type demo_textarea = Input.Textarea
  /\ spread_of (Input.renderInput demo_textarea Input.initial) !! "resize" = None
  /\ rows_of (Input.renderInput demo_textarea Input.initial) = Some 4%Z.
Proof.
  split; [reflexivity|].
  destruct (proj1 (control_attributes demo_textarea Input.initial "resize") eq_refl)
    as (S & R & _).
  split; [exact S | exact R].
Defined.

End ComponentFacts.

(** ** More on the form pages *)

Section PageFacts.
Import JsString Regex.

Ltac cases :=
  repeat match goal with
  | |- context [if negb ?b then _ else _] => destruct b eqn:?; cbn [negb]
  | |- context [if (?a <? ?c)%nat then _ else _] => destruct (a <? c)%nat eqn:?
  end.

Lemma well_formed_empty (fields : list string) : well_formed_errors fields ∅.
Proof. intros k m H. rewrite lookup_empty in H. discriminate. Qed.

Lemma well_formed_insert (fields : list string) (errs : gmap string (list N))
  (k : string) (m : list N) :
  In k fields -> m <> [] -> well_formed_errors fields errs ->
  well_formed_errors fields (<[k := m]> errs).
Proof.
  intros K M W k' m' H. apply lookup_insert_Some in H.
  destruct H as [[<- <-] | [_ H]]; [now split | now apply W].
Qed.

Ltac well_formed :=
  repeat (apply well_formed_insert; [simpl; tauto | discriminate |]);
  apply well_formed_empty.

(** The sign-up form logs a success exactly when the name is not blank,
    the email matches the pattern, and the password is not blank and has at
    least 6 characters; the error dictionary is then empty, and otherwise
    some field has an error.  The values are left as they are. *)
Theorem signup_success_iff (st : FormState) (name email password : list N) :
  formData st !! "name" = Some name ->
  formData st !! "email" = Some email ->
  formData st !! "password" = Some password ->
  exists st',
    Signup.handleSubmit st
    = Some (st', if signup_valid name email password
                 then [SignupSuccess (formData st)] else [])
    /\ formData st' = formData st
    /\ (signup_valid name email password = true -> errors st' = ∅)
    /\ (signup_valid name email password = false ->
        exists k, In k ["name"; "email"; "password"]
                  /\ truthy (errors st' !! k) = true).
Proof.
  intros Nm E P. unfold Signup.handleSubmit, signup_valid.
  rewrite Nm, E, P. cbn [mbind option_bind].
  rewrite (Nat.ltb_antisym 6 (length password)).
  pose proof (email_match_not_blank email) as NB.
  destruct (test email_re email); [rewrite NB by reflexivity|];
    destruct (nonempty (trim name)), (nonempty (trim password)),
      (6 <=? length password)%nat;
    try destruct (nonempty (trim email));
    cbn [negb andb]; eexists; (split; [reflexivity|]);
    (split; [reflexivity|]);
    (split; [first [intros _; reflexivity | discriminate]|]);
    try discriminate; intros _;
    first [ exists "name"; split; [simpl; tauto | reflexivity]
          | exists "email"; split; [simpl; tauto | reflexivity]
          | exists "password"; split; [simpl; tauto | reflexivity] ].
Qed.

Lemma signup_success_iff_witness :
  formData (signup_form (js "John") (js "john@example.com") (js "secret")) !! "name"
  = Some (js "John")
  /\ exists st',
       Signup.handleSubmit (signup_form (js "John") (js "john@example.com") (js "secret"))
       = Some (st', [SignupSuccess
                       (formData (signup_form (js "John") (js "john@example.com")
                                    (js "secret")))])
       /\ errors st' = ∅.
Proof.
  split; [reflexivity|].
  destruct (signup_success_iff
              (signup_form (js "John") (js "john@example.com") (js "secret"))
              (js "John") (js "john@example.com") (js "secret")
              eq_refl eq_refl eq_refl) as (st' & H & _ & V & _).
  exists st'. split; [exact H | exact (V eq_refl)].
Defined.

(** The sign-in form logs a success exactly when the email matches the
    pattern and the password is not blank. *)
Theorem signin_success_iff (st : FormState) (email password : list N) :
  formData st !! "email" = Some email ->
  formData st !! "password" = Some password ->
  exists st',
    Signin.handleSubmit st
    = Some (st', if signin_valid email password
                 then [SigninSuccess (formData st)] else [])
    /\ formData st' = formData st
    /\ (signin_valid email password = true -> errors st' = ∅)
    /\ (signin_valid email password = false ->
        exists k, In k ["email"; "password"] /\ truthy (errors st' !! k) = true).
Proof.
  intros E P. unfold Signin.handleSubmit, signin_valid.
  rewrite E, P. cbn [mbind option_bind].
  pose proof (email_match_not_blank email) as NB.
  destruct (test email_re email); [rewrite NB by reflexivity|];
    destruct (nonempty (trim password));
    try destruct (nonempty (trim email));
    cbn [negb andb]; eexists; (split; [reflexivity|]);
    (split; [reflexivity|]);
    (split; [first [intros _; reflexivity | discriminate]|]);
    try discriminate; intros _;
    first [ exists "email"; split; [simpl; tauto | reflexivity]
          | exists "password"; split; [simpl; tauto | reflexivity] ].
Qed.

Lemma signin_success_iff_witness :
  formData (signin_form (js "john@example.com") (js "x")) !! "email"
  = Some (js "john@example.com")
  /\ exists st',
       Signin.handleSubmit (signin_form (js "john@example.com") (js "x"))
       = Some (st', [SigninSuccess
                       (formData (signin_form (js "john@example.com") (js "x")))])
       /\ errors st' = ∅.
Proof.
  split; [reflexivity|].
  destruct (signin_success_iff (signin_form (js "john@example.com") (js "x"))
              (js "john@example.com") (js "x") eq_refl eq_refl)
    as (st' & H & _ & V & _).
  exists st'. split; [exact H | exact (V eq_refl)].
Defined.

(** A validation writes only messages that are not empty, under the names
    of the fields of its form, and leaves the values as they are. *)
Theorem validation_entries :
  (forall st st' log,
     Signin.handleSubmit st = Some (st', log) ->
     well_formed_errors ["email"; "password"] (errors st')
     /\ formData st' = formData st)
  /\ (forall st st' log,
        Signup.handleSubmit st = Some (st', log) ->
        well_formed_errors ["name"; "email"; "password"] (errors st')
        /\ formData st' = formData st)
  /\ (forall st st',
        InputDemo.validateForm st = Some st' ->
        well_formed_errors ["name"; "email"; "password"] (errors st')
        /\ formData st' = formData st)
  /\ (forall st st',
        PasswordInputDemo.validatePasswords st = Some st' ->
        well_formed_errors ["form"] (errors st')
        /\ formData st' = formData st).
Proof.
  split; [|split; [|split]].
  - intros st st' log H. unfold Signin.handleSubmit in H.
    destruct (formData st !! "email") as [email|]; [|discriminate].
    destruct (formData st !! "password") as [password|]; [|discriminate].
    cbn [mbind option_bind] in H. injection H as <- _. cbn [errors formData].
    split; [|reflexivity]. cases; well_formed.
  - intros st st' log H. unfold Signup.handleSubmit in H.
    destruct (formData st !! "name") as [name|]; [|discriminate].
    destruct (formData st !! "email") as [email|]; [|discriminate].
    destruct (formData st !! "password") as [password|]; [|discriminate].
    cbn [mbind option_bind] in H. injection H as <- _. cbn [errors formData].
    split; [|reflexivity]. cases; well_formed.
  - intros st st' H. unfold InputDemo.validateForm in H.
    destruct (formData st !! "name") as [name|]; [|discriminate].
    destruct (formData st !! "email") as [email|]; [|discriminate].
    destruct (formData st !! "password") as [password|]; [|discriminate].
    cbn [mbind option_bind] in H. injection H as <-. cbn [errors formData].
    split; [|reflexivity]. cases; well_formed.
  - intros st st' H. unfold PasswordInputDemo.validatePasswords in H.
    destruct (formData st !! "form") as [form|]; [|discriminate].
    cbn [mbind option_bind] in H. injection H as <-. cbn [errors formData].
    split; [|reflexivity]. cases; well_formed.
Qed.

Lemma validation_entries_witness :
  exists st' log,
    Signup.handleSubmit (signup_form [] [] (js "abc")) = Some (st', log)
    /\ well_formed_errors ["name"; "email"; "password"] (errors st').
Proof.
  eexists _, _. split; [reflexivity|].
  exact (proj1 (proj1 (proj2 validation_entries)
                  (signup_form [] [] (js "abc")) _ _ eq_refl)).
Defined.



(** The four change handlers are one function. *)
Lemma change_handlers (h : string -> list N -> FormState -> FormState) :
  In h [Signin.handleChange; Signup.handleChange; InputDemo.handleInputChange;
        PasswordInputDemo.handlePasswordChange] ->
  h = Signin.handleChange.
Proof. intros [<- | [<- | [<- | [<- | []]]]]; reflexivity. Qed.






(** After any sequence of change events the value of a field is the one
    of the latest event for that field, and the value it had when there was
    no such event: the last write wins and no other field is touched. *)
Theorem last_write_wins (h : string -> list N -> FormState -> FormState)
  (events : list (string * list N)) (st : FormState) (k : string) :
  In h [Signin.handleChange; Signup.handleChange; InputDemo.handleInputChange;
        PasswordInputDemo.handlePasswordChange] ->
  formData (after_changes h events st) !! k
  = match last_write k events with
    | Some v => Some v
    | None => formData st !! k
    end.
Proof.
  intros H. rewrite (change_handlers h H). clear H h. revert st.
  induction events as [|[f v] events IH]; intros st; [reflexivity|].
  cbn [after_changes fold_left last_write fst snd].
  fold (after_changes Signin.handleChange events (Signin.handleChange f v st)).
  rewrite IH. destruct (last_write k events); [reflexivity|].
  unfold Signin.handleChange. cbn [formData].
  destruct (String.eqb_spec f k) as [-> | NE].
  - apply lookup_insert_eq.
  - now apply lookup_insert_ne.
Qed.

Lemma last_write_wins_witness :
  In Signup.handleChange
    [Signin.handleChange; Signup.handleChange; InputDemo.handleInputChange;
     PasswordInputDemo.handlePasswordChange]
  /\ formData (after_changes Signup.handleChange
                 [("name", js "J"); ("email", js "j@"); ("name", js "Jo")]
                 Signup.initial) !! "name"
     = Some (js "Jo").
Proof.
  split; [right; now left|].
  exact (last_write_wins Signup.handleChange
           [("name", js "J"); ("email", js "j@"); ("name", js "Jo")]
           Signup.initial "name" (or_intror (or_introl eq_refl))).
Defined.

(** Whatever the state of the sign-up form is, errors or missing values
    included, entering a valid name, email and password and submitting logs
    a success and leaves no error. *)
Theorem signup_fix_and_resubmit (st : FormState) (name email password : list N) :
  signup_valid name email password = true ->
  Signup.handleSubmit
    (Signup.handleChange "password" password
       (Signup.handleChange "email" email
          (Signup.handleChange "name" name st)))
  = Some ({| formData := <["password" := password]>
                           (<["email" := email]>
                              (<["name" := name]> (formData st)));
             errors := ∅ |},
          [SignupSuccess (<["password" := password]>
                            (<["email" := email]>
                               (<["name" := name]> (formData st))))]).
Proof.
  unfold signup_valid. intros V.
  apply andb_true_iff in V. destruct V as [V L].
  apply andb_true_iff in V. destruct V as [V P].
  apply andb_true_iff in V. destruct V as [Nm E].
  pose proof (email_match_not_blank email E) as NB.
  unfold Signup.handleSubmit, Signup.handleChange. cbn [formData].
  rewrite (lookup_insert_ne _ "password" "name") by done.
  rewrite (lookup_insert_ne _ "email" "name") by done.
  rewrite (lookup_insert_eq _ "name"). cbn [mbind option_bind].
  rewrite (lookup_insert_ne _ "password" "email") by done.
  rewrite (lookup_insert_eq _ "email"). cbn [mbind option_bind].
  rewrite (lookup_insert_eq _ "password"). cbn [mbind option_bind].
  rewrite Nm, NB, E, P, (Nat.ltb_antisym 6 (length password)), L.
  reflexivity.
Qed.

Lemma signup_fix_and_resubmit_witness :
  signup_valid (js "John") (js "john@example.com") (js "secret") = true
  /\ exists st',
       Signup.handleSubmit
         (Signup.handleChange "password" (js "secret")
            (Signup.handleChange "email" (js "john@example.com")
               (Signup.handleChange "name" (js "John") signin_rejected)))
       = Some (st', [SignupSuccess (formData st')])
       /\ errors st' = ∅.
Proof.
  split; [reflexivity|]. eexists. split.
  - exact (signup_fix_and_resubmit signin_rejected (js "John")
             (js "john@example.com") (js "secret") eq_refl).
  - reflexivity.
Defined.

(** *** The pattern and the validator of the password page *)

(** Letters and digits are neither line terminators nor white space. *)
Lemma alnum_range (c : N) :
  lower c || upper c || digit c = true -> 48 <= c <= 122.
Proof.
  unfold lower, upper, digit, in_range.
  change (N_of_ascii "a") with 97; change (N_of_ascii "z") with 122;
  change (N_of_ascii "A") with 65; change (N_of_ascii "Z") with 90;
  change (N_of_ascii "0") with 48; change (N_of_ascii "9") with 57.
  destruct (N.leb_spec 97 c), (N.leb_spec c 122), (N.leb_spec 65 c),
    (N.leb_spec c 90), (N.leb_spec 48 c), (N.leb_spec c 57);
    simpl; intros X; try discriminate X; lia.
Qed.

Lemma alnum_plain (c : N) :
  lower c || upper c || digit c = true ->
  dot c = true /\ non_space c = true.
Proof.
  intros H. apply alnum_range in H.
  unfold dot, non_space, is_space, isWhiteSpace, isLineTerminator.
  repeat match goal with
  | |- context [N.eqb c ?k] =>
      replace (N.eqb c k) with false by (symmetry; apply N.eqb_neq; lia)
  | |- context [N.leb ?k c] =>
      replace (N.leb k c) with false by (symmetry; apply N.leb_gt; lia)
  end.
  now split.
Qed.

Lemma first_line_prefix (t : list N) : exists b, t = first_line t ++ b.
Proof.
  induction t as [|c t (b & E)]; simpl; [now exists []|].
  destruct (dot c); [|now eexists].
  exists b. simpl. now f_equal.
Qed.

Lemma first_line_all (t : list N) :
  forallb dot t = true -> first_line t = t.
Proof.
  induction t as [|c t IH]; simpl; [reflexivity|].
  intros H. apply andb_true_iff in H. destruct H as [-> H]. now rewrite IH.
Qed.

Lemma first_line_exists (p : N -> bool) (t : list N) :
  (forall c, p c = true -> dot c = true) ->
  existsb p (first_line t) = true <->
  exists a c b, t = a ++ c :: b /\ forallb dot a = true /\ p c = true.
Proof.
  intros D. induction t as [|x t IH]; simpl.
  - split; [discriminate|]. intros (a & c & b & E & _). now destruct a.
  - destruct (dot x) eqn:Dx; simpl.
    + rewrite orb_true_iff, IH. split.
      * intros [P | (a & c & b & -> & F & P)].
        -- now exists [], x, t.
        -- exists (x :: a), c, b. simpl. now rewrite Dx.
      * intros (a & c & b & E & F & P). destruct a as [|y a]; simpl in *.
        -- injection E as -> ->. now left.
        -- injection E as -> ->. apply andb_true_iff in F. destruct F as [_ F].
           right. now exists a, c, b.
    + split; [discriminate|]. intros (a & c & b & E & F & P).
      destruct a as [|y a]; simpl in *; injection E as -> ->.
      * apply D in P. congruence.
      * rewrite Dx in F. discriminate.
Qed.

Lemma matches_line_class (p : N -> bool) (t t' : list N) :
  matches (Cat (Star dot) (Atom p)) t t' <->
  exists a c, t = a ++ c :: t' /\ forallb dot a = true /\ p c = true.
Proof.
  split.
  - intros M. inversion M as [ | | | |r1 r2 x0 x1 x2 Ms Ma| ]; subst; clear M.
    inversion Ma as [p0 c s0 P| | | | | ]; subst; clear Ma.
    apply matches_star in Ms. destruct Ms as (a & -> & F). now exists a, c.
  - intros (a & c & -> & F & P). apply m_cat with (c :: t').
    + apply matches_star. now exists a.
    + now constructor.
Qed.

Lemma look_line_class (p : N -> bool) (t t' : list N) :
  (forall c, p c = true -> dot c = true) ->
  matches (Look (Cat (Star dot) (Atom p))) t t' <->
  t' = t /\ existsb p (first_line t) = true.
Proof.
  intros D. rewrite (first_line_exists p t D). split.
  - intros M. inversion M as [ | | | | |r s0 s1 M0]; subst; clear M.
    apply matches_line_class in M0. destruct M0 as (a & c & E & F & P).
    split; [reflexivity|]. now exists a, c, s1.
  - intros (-> & a & c & b & E & F & P). apply m_look with b.
    apply matches_line_class. now exists a, c.
Qed.

Lemma lower_dot (c : N) : lower c = true -> dot c = true.
Proof. intros H. apply alnum_plain. now rewrite H. Qed.

Lemma upper_dot (c : N) : upper c = true -> dot c = true.
Proof. intros H. apply alnum_plain. rewrite H. now destruct (lower c). Qed.

Lemma digit_dot (c : N) : digit c = true -> dot c = true.
Proof. intros H. apply alnum_plain. rewrite H. now destruct (lower c), (upper c). Qed.

Lemma mixed_re_first_line (s : list N) :
  test mixed_re s = true <->
  exists pre t,
    s = pre ++ t
    /\ existsb lower (first_line t) = true
    /\ existsb upper (first_line t) = true
    /\ existsb digit (first_line t) = true.
Proof.
  rewrite test_spec. unfold mixed_re. split.
  - intros (pre & t & t' & -> & M).
    inversion M as [ | | | |r1 r2 x0 x1 x2 Ml M1| ]; subst; clear M.
    inversion M1 as [ | | | |r1 r2 y0 y1 y2 Mu Md| ]; subst; clear M1.
    apply (look_line_class lower _ _ lower_dot) in Ml. destruct Ml as [-> L].
    apply (look_line_class upper _ _ upper_dot) in Mu. destruct Mu as [-> U].
    apply (look_line_class digit _ _ digit_dot) in Md. destruct Md as [-> Dg].
    now exists pre, t.
  - intros (pre & t & -> & L & U & Dg). exists pre, t, t. split; [reflexivity|].
    apply m_cat with t; [now apply (look_line_class lower _ _ lower_dot)|].
    apply m_cat with t; [now apply (look_line_class upper _ _ upper_dot)|].
    now apply (look_line_class digit _ _ digit_dot).
Qed.

Lemma existsb_first_line (p : N -> bool) (pre t : list N) :
  existsb p (first_line t) = true -> existsb p (pre ++ t) = true.
Proof.
  intros H. destruct (first_line_prefix t) as (b & E). rewrite E.
  rewrite !existsb_app, H. now rewrite orb_true_r.
Qed.

Lemma mixed_has_classes (s : list N) :
  test mixed_re s = true ->
  existsb lower s = true /\ existsb upper s = true /\ existsb digit s = true.
Proof.
  intros H. apply mixed_re_first_line in H.
  destruct H as (pre & t & -> & L & U & D).
  repeat split; now apply existsb_first_line.
Qed.

Lemma lower_not_blank (s : list N) :
  existsb lower s = true -> nonempty (trim s) = true.
Proof.
  rewrite nonempty_trim. induction s as [|c s IH]; simpl; [discriminate|].
  intros H. apply orb_true_iff in H. destruct H as [H | H].
  - assert (P : non_space c = true) by (apply alnum_plain; now rewrite H).
    now rewrite P.
  - rewrite (IH H). apply orb_true_r.
Qed.

(** The pattern of the password page matches exactly when, from some
    position on, the rest of the line has a lowercase letter, an uppercase
    letter and a digit; on a string without line terminators, exactly when
    the string has the three. *)
Theorem mixed_pattern_same_line (s : list N) :
  (test mixed_re s = true <->
   exists pre t,
     s = pre ++ t
     /\ existsb lower (first_line t) = true
     /\ existsb upper (first_line t) = true
     /\ existsb digit (first_line t) = true)
  /\ (forallb dot s = true ->
      test mixed_re s = existsb lower s && existsb upper s && existsb digit s).
Proof.
  split; [apply mixed_re_first_line|]. intros D.
  destruct (existsb lower s && existsb upper s && existsb digit s) eqn:C.
  - apply mixed_re_first_line. exists [], s. rewrite (first_line_all s D).
    apply andb_true_iff in C. destruct C as [C Dg].
    apply andb_true_iff in C. destruct C as [L U]. now repeat split.
  - destruct (test mixed_re s) eqn:T; [|reflexivity].
    destruct (mixed_has_classes s T) as (L & U & Dg).
    rewrite L, U, Dg in C. discriminate.
Qed.

Lemma mixed_pattern_same_line_witness :
  forallb dot (js "abcDEF12") = true
  /\ test mixed_re (js "abcDEF12")
     = existsb lower (js "abcDEF12") && existsb upper (js "abcDEF12")
       && existsb digit (js "abcDEF12").
Proof.
  split; [reflexivity|].
  exact (proj2 (mixed_pattern_same_line (js "abcDEF12")) eq_refl).
Defined.

(** What an accepted password of the password page has. *)
Lemma password_demo_accepted (st st' : FormState) (form : list N) :
  formData st !! "form" = Some form ->
  PasswordInputDemo.validatePasswords st = Some st' ->
  errors st' = ∅ ->
  (8 <= length form)%nat
  /\ existsb lower form = true /\ existsb upper form = true
  /\ existsb digit form = true.
Proof.
  intros F V E. unfold PasswordInputDemo.validatePasswords in V.
  rewrite F in V. cbn [mbind option_bind] in V. injection V as <-.
  cbn [errors] in E. revert E.
  destruct (nonempty (trim form)); cbn [negb];
    [|intros E; apply (f_equal (lookup "form")) in E;
      rewrite lookup_insert_eq, lookup_empty in E; discriminate].
  destruct (Nat.ltb_spec (length form) 8);
    [intros E; apply (f_equal (lookup "form")) in E;
     rewrite lookup_insert_eq, lookup_empty in E; discriminate|].
  destruct (test mixed_re form) eqn:T; cbn [negb];
    [|intros E; apply (f_equal (lookup "form")) in E;
      rewrite lookup_insert_eq, lookup_empty in E; discriminate].
  intros _. split; [assumption|]. now apply mixed_has_classes.
Qed.

(** The validator of the password page accepts a password only when it
    has at least 8 characters, a lowercase letter, an uppercase letter and a
    digit, and it accepts every such password that has no line terminator.
    A rejected password gets exactly one message, under [form]. *)
Theorem password_demo_acceptance (st : FormState) (form : list N) :
  formData st !! "form" = Some form ->
  exists st',
    PasswordInputDemo.validatePasswords st = Some st'
    /\ formData st' = formData st
    /\ (errors st' = ∅ ->
        (8 <= length form)%nat
        /\ satisfies HasLowercase form = true
        /\ satisfies HasUppercase form = true
        /\ satisfies HasDigit form = true)
    /\ (forallb dot form = true ->
        (8 <= length form)%nat ->
        satisfies HasLowercase form = true ->
        satisfies HasUppercase form = true ->
        satisfies HasDigit form = true ->
        errors st' = ∅)
    /\ (errors st' = ∅
        \/ exists m, errors st' = <["form" := m]> ∅ /\ m <> []).
Proof.
  intros F.
  destruct (PasswordInputDemo.validatePasswords st) as [st'|] eqn:V.
  2:{ unfold PasswordInputDemo.validatePasswords in V. rewrite F in V. discriminate. }
  exists st'. split; [reflexivity|].
  split.
  { unfold PasswordInputDemo.validatePasswords in V. rewrite F in V.
    cbn [mbind option_bind] in V. now injection V as <-. }
  split; [intros E; now apply (password_demo_accepted st st' form F V E)|].
  unfold PasswordInputDemo.validatePasswords in V. rewrite F in V.
  cbn [mbind option_bind] in V. injection V as <-. cbn [errors]. split.
  - intros D L Lo Up Dg. cbn [satisfies] in Lo, Up, Dg.
    rewrite (lower_not_blank form Lo). cbn [negb].
    destruct (Nat.ltb_spec (length form) 8); [lia|].
    assert (T : test mixed_re form = true).
    { apply mixed_re_first_line. exists [], form.
      rewrite (first_line_all form D). now repeat split. }
    now rewrite T.
  - cases; first [now left | right; eexists; split; [reflexivity | discriminate]].
Qed.

Lemma password_demo_acceptance_witness :
  formData {| formData := <["form" := js "abcDEF12"]> ∅; errors := ∅ |} !! "form"
  = Some (js "abcDEF12")
  /\ exists st',
       PasswordInputDemo.validatePasswords
         {| formData := <["form" := js "abcDEF12"]> ∅; errors := ∅ |} = Some st'
       /\ errors st' = ∅.
Proof.
  assert (F : formData {| formData := <["form" := js "abcDEF12"]> ∅; errors := ∅ |}
              !! "form" = Some (js "abcDEF12")) by reflexivity.
  split; [exact F|].
  destruct (password_demo_acceptance
              {| formData := <["form" := js "abcDEF12"]> ∅; errors := ∅ |}
              (js "abcDEF12") F) as (st' & V & _ & _ & A & _).
  exists st'. split; [exact V|].
  apply A; reflexivity || (simpl; lia).
Defined.

(** A password that the validator of the password page accepts is rated
    Good or Strong by the strength meter, with a score of at least 70. *)
Theorem accepted_password_is_rated_good (st st' : FormState) (form : list N) :
  formData st !! "form" = Some form ->
  PasswordInputDemo.validatePasswords st = Some st' ->
  errors st' = ∅ ->
  (70 <= PasswordInput.score (PasswordInput.calculatePasswordStrength form))%Z
  /\ (PasswordInput.label (PasswordInput.calculatePasswordStrength form) = js "Good"
      \/ PasswordInput.label (PasswordInput.calculatePasswordStrength form)
         = js "Strong").
Proof.
  intros F V E.
  destruct (password_demo_accepted st st' form F V E) as (L & Lo & Up & Dg).
  assert (NE : form <> []) by (destruct form; [discriminate Lo | discriminate]).
  rewrite (calculate_nonempty form NE). cbn [PasswordInput.score PasswordInput.label].
  assert (T : (70 <= total form)%Z).
  { unfold total, contribution. cbn [satisfies increment].
    rewrite Lo, Up, Dg. apply Nat.leb_le in L. rewrite L.
    destruct (12 <=? length form)%nat, (existsb symbol form); lia. }
  split; [exact T|]. unfold label_of_score.
  destruct (Z.ltb_spec (total form) 30); [lia|].
  destruct (Z.ltb_spec (total form) 60); [lia|].
  destruct (total form <? 80)%Z; [now left | now right].
Qed.

Lemma accepted_password_is_rated_good_witness :
  exists st',
    PasswordInputDemo.validatePasswords
      {| formData := <["form" := js "abcDEF12"]> ∅; errors := ∅ |} = Some st'
    /\ errors st' = ∅
    /\ (70 <= PasswordInput.score
                (PasswordInput.calculatePasswordStrength (js "abcDEF12")))%Z.
Proof.
  eexists. split; [reflexivity|]. split; [reflexivity|].
  refine (proj1 (accepted_password_is_rated_good
                   {| formData := <["form" := js "abcDEF12"]> ∅; errors := ∅ |}
                   _ (js "abcDEF12") _ _ _)); reflexivity.
Defined.

(** *** What the fields display *)

(** A value of [error] that is not truthy is rendered as no error. *)
Lemma render_with_error (p : Input.InputProps) (e : option (list N))
  (ist : Input.InteractionState) :
  truthy e = false ->
  Input.render (with_error p e) ist = Input.render (with_error p None) ist.
Proof.
  intros T.
  unfold Input.render, Input.renderLabel, Input.renderLeft, Input.renderHelper,
    Input.renderInput, Input.rightSlot, Input.rightSlotClass, Input.inputClasses,
    Input.isTextareaProps, Input.actualType, Input.rows, Input.resize, with_error.
  cbn [Input.variant Input.size Input.label Input.placeholder Input.helperText
       Input.error Input.disabled Input.required Input.fullWidth Input.leftIcon
       Input.rightIcon Input.className Input.onLeftIconClick
       Input.onRightIconClick Input.type Input.rest].
  rewrite T. reflexivity.
Qed.

Lemma change_error_not_truthy (field : string) (value : list N) (st : FormState) :
  truthy ((if truthy (errors st !! field)
           then <[field := []]> (errors st) else errors st) !! field) = false.
Proof.
  destruct (truthy (errors st !! field)) eqn:T; [|exact T].
  now rewrite lookup_insert_eq.
Qed.

Lemma signup_submit_well_formed (st st' : FormState) (log : list LogEntry) :
  Signup.handleSubmit st = Some (st', log) ->
  well_formed_errors ["name"; "email"; "password"] (errors st').
Proof.
  intros H. unfold Signup.handleSubmit in H.
  destruct (formData st !! "name") as [name|]; [|discriminate].
  destruct (formData st !! "email") as [email|]; [|discriminate].
  destruct (formData st !! "password") as [password|]; [|discriminate].
  cbn [mbind option_bind] in H. injection H as <- _. cbn [errors].
  cases; well_formed.
Qed.

Lemma helper_of_error (p : Input.InputProps) (e : option (list N)) :
  Input.helperText p = None -> Input.size p = None ->
  (forall m, e = Some m -> m <> []) ->
  Input.renderHelper (with_error p e)
  = match e with Some m => Some (error_line m) | None => None end.
Proof.
  intros Hh Hs W. unfold Input.renderHelper, with_error.
  cbn [Input.helperText Input.error Input.size]. rewrite Hh, Hs.
  destruct e as [m|]; [|reflexivity].
  specialize (W m eq_refl). destruct m as [|c m]; [congruence|]. reflexivity.
Qed.

(** After a submission of the sign-up form, the line under each field is
    the message the validation wrote for that field, in red, and there is no
    line under a field that passed. *)
Theorem signup_fields_show_messages (st st' : FormState) (log : list LogEntry)
  (ist : Input.InteractionState) :
  Signup.handleSubmit st = Some (st', log) ->
  Input.view_helper (Input.render (Signup.nameInput st') ist)
    = match errors st' !! "name" with
      | Some m => Some (error_line m) | None => None end
  /\ Input.view_helper (Input.render (Signup.emailInput st') ist)
     = match errors st' !! "email" with
       | Some m => Some (error_line m) | None => None end
  /\ Input.view_helper (Input.render (Signup.passwordInput st') ist)
     = match errors st' !! "password" with
       | Some m => Some (error_line m) | None => None end.
Proof.
  intros H. pose proof (signup_submit_well_formed st st' log H) as W.
  cbn [Input.render Input.view_helper].
  split; [|split].
  - change (Signup.nameInput st')
      with (with_error (Signup.nameInput st') (errors st' !! "name")).
    apply helper_of_error; [reflexivity | reflexivity|].
    intros m L. exact (proj2 (W _ _ L)).
  - change (Signup.emailInput st')
      with (with_error (Signup.emailInput st') (errors st' !! "email")).
    apply helper_of_error; [reflexivity | reflexivity|].
    intros m L. exact (proj2 (W _ _ L)).
  - change (Signup.passwordInput st')
      with (with_error (Signup.passwordInput st') (errors st' !! "password")).
    apply helper_of_error; [reflexivity | reflexivity|].
    intros m L. exact (proj2 (W _ _ L)).
Qed.

Lemma signup_fields_show_messages_witness :
  exists st' log,
    Signup.handleSubmit (signup_form [] [] (js "abc")) = Some (st', log)
    /\ Input.view_helper (Input.render (Signup.passwordInput st') Input.initial)
       = Some (error_line (js "Min 6 characters")).
Proof.
  eexists _, _. split; [reflexivity|].
  refine (proj2 (proj2 (signup_fields_show_messages
                          (signup_form [] [] (js "abc")) _ _ Input.initial _)));
    reflexivity.
Defined.

(** A change event makes its field render as in a form without any error,
    whatever the new value is: no message, no red border, no red label.  In
    the demo form the helper text of the password is back. *)
Theorem change_hides_error (st : FormState) (value : list N)
  (ist : Input.InteractionState) :
  Input.render (Signup.nameInput (Signup.handleChange "name" value st)) ist
    = Input.render (Signup.nameInput
                      (without_errors (Signup.handleChange "name" value st))) ist
  /\ Input.render (Signup.emailInput (Signup.handleChange "email" value st)) ist
     = Input.render (Signup.emailInput
                       (without_errors (Signup.handleChange "email" value st))) ist
  /\ Input.render (Signup.passwordInput (Signup.handleChange "password" value st)) ist
     = Input.render (Signup.passwordInput
                       (without_errors (Signup.handleChange "password" value st))) ist
  /\ Input.render (Signin.emailInput (Signin.handleChange "email" value st)) ist
     = Input.render (Signin.emailInput
                       (without_errors (Signin.handleChange "email" value st))) ist
  /\ Input.render (Signin.passwordInput (Signin.handleChange "password" value st)) ist
     = Input.render (Signin.passwordInput
                       (without_errors (Signin.handleChange "password" value st))) ist
  /\ Input.view_helper
       (Input.render (InputDemo.passwordInput
                        (InputDemo.handleInputChange "password" value st)) ist)
     = Some {| Input.helper_className := js "mt-1 text-sm text-gray-500";
               Input.helper_text := js "Minimum 6 characters" |}.
Proof.
  pose proof (change_error_not_truthy "name" value st) as Tn.
  pose proof (change_error_not_truthy "email" value st) as Te.
  pose proof (change_error_not_truthy "password" value st) as Tp.
  repeat split.
  - exact (render_with_error
             (Signup.nameInput (Signup.handleChange "name" value st)) _ ist Tn).
  - exact (render_with_error
             (Signup.emailInput (Signup.handleChange "email" value st)) _ ist Te).
  - exact (render_with_error
             (Signup.passwordInput (Signup.handleChange "password" value st)) _ ist Tp).
  - exact (render_with_error
             (Signin.emailInput (Signin.handleChange "email" value st)) _ ist Te).
  - exact (render_with_error
             (Signin.passwordInput (Signin.handleChange "password" value st)) _ ist Tp).
  - cbn [Input.render Input.view_helper]. unfold Input.renderHelper.
    unfold InputDemo.passwordInput, InputDemo.handleInputChange.
    cbn [Input.helperText Input.error Input.size errors]. rewrite Tp. reflexivity.
Qed.

(** The clear icon of the search field is rendered exactly when the search
    value is not empty, and a click on it calls [handleClearSearch]; that
    handler empties the search value, so that the icon is gone, and leaves
    the other values and the errors as they are. *)
Theorem search_clear_icon (st : FormState) (e : Event)
  (ist : Input.InteractionState) :
  present (Input.rightSlot (InputDemo.searchInput st) ist)
    = truthy (formData st !! "search")
  /\ Input.rightSlotClick (InputDemo.searchInput st) e ist
     = (ist, [CallWith InputDemo.clear_listener e])
  /\ Input.rightSlot (InputDemo.searchInput (InputDemo.handleClearSearch st)) ist
     = None
  /\ formData (InputDemo.handleClearSearch st) !! "search" = Some []
  /\ (forall k, k <> "search" ->
        formData (InputDemo.handleClearSearch st) !! k = formData st !! k)
  /\ errors (InputDemo.handleClearSearch st) = errors st.
Proof.
  split; [|split; [|split; [|split; [|split]]]].
  - unfold Input.rightSlot, InputDemo.searchInput.
    cbn [Input.type Input.rightIcon Input.InputType_eqb].
    now destruct (truthy (formData st !! "search")).
  - reflexivity.
  - unfold Input.rightSlot, InputDemo.searchInput, InputDemo.handleClearSearch.
    cbn [Input.type Input.rightIcon Input.InputType_eqb formData].
    now rewrite lookup_insert_eq.
  - apply lookup_insert_eq.
  - intros k NE. unfold InputDemo.handleClearSearch. cbn [formData].
    now apply lookup_insert_ne.
  - reflexivity.
Qed.

(** *** The demo form and the sign-up form *)

Lemma no_keys_insert (m : gmap string (list N)) (k : string) (v : list N) :
  no_keys (<[k := v]> m) = false.
Proof.
  unfold no_keys. destruct (size (<[k := v]> m)) eqn:S; [|reflexivity].
  apply map_size_empty_iff in S. now apply insert_non_empty in S.
Qed.

(** The demo form and the sign-up form apply the same rules: on the same
    values they report errors for the same fields, and the demo form has no
    error exactly when the sign-up form logs a success. *)
Theorem demo_rules_are_signup_rules (st : FormState) (name email password : list N) :
  formData st !! "name" = Some name ->
  formData st !! "email" = Some email ->
  formData st !! "password" = Some password ->
  exists sd su log,
    InputDemo.validateForm st = Some sd
    /\ Signup.handleSubmit st = Some (su, log)
    /\ dom (errors sd) = dom (errors su)
    /\ (errors sd = ∅ <-> log = [SignupSuccess (formData st)]).
Proof.
  intros Nm E P. unfold InputDemo.validateForm, Signup.handleSubmit.
  rewrite Nm, E, P. cbn [mbind option_bind].
  eexists _, _, _. split; [reflexivity|]. split; [reflexivity|]. cbn [errors].
  destruct (nonempty (trim name)), (nonempty (trim email)),
    (test email_re email), (nonempty (trim password)),
    (length password <? 6)%nat; cbn [negb];
    rewrite ?no_keys_insert;
    (split; [rewrite ?dom_insert_L, ?dom_empty_L; reflexivity|]);
    split; intros X;
    first [ reflexivity | discriminate X
          | exfalso; exact (insert_non_empty _ _ _ X) ].
Qed.

Lemma demo_rules_are_signup_rules_witness :
  formData (signup_form (js "John") (js "john") (js "secret")) !! "name"
  = Some (js "John")
  /\ exists sd su log,
       InputDemo.validateForm (signup_form (js "John") (js "john") (js "secret"))
       = Some sd
       /\ Signup.handleSubmit (signup_form (js "John") (js "john") (js "secret"))
          = Some (su, log)
       /\ dom (errors sd) = dom (errors su).
Proof.
  split; [reflexivity|].
  destruct (demo_rules_are_signup_rules
              (signup_form (js "John") (js "john") (js "secret"))
              (js "John") (js "john") (js "secret") eq_refl eq_refl eq_refl)
    as (sd & su & log & Hd & Hs & D & _).
  exists sd, su, log. split; [exact Hd|]. split; [exact Hs | exact D].
Defined.

End PageFacts.

(** ** More on the strength estimator *)

Section StrengthBands.
Import JsString Regex PasswordInput.

Lemma label_weak_iff (score : Z) :
  label_of_score score = js "Weak" <-> (score < 30)%Z.
Proof.
  unfold label_of_score.
  destruct (Z.ltb_spec score 30); [split; [intros _; assumption | reflexivity]|].
  destruct (score <? 60)%Z; [split; [discriminate | lia]|].
  destruct (score <? 80)%Z; split; discriminate || lia.
Qed.

Lemma label_strong_iff (score : Z) :
  label_of_score score = js "Strong" <-> (80 <= score)%Z.
Proof.
  unfold label_of_score.
  destruct (Z.ltb_spec score 30); [split; [discriminate | lia]|].
  destruct (Z.ltb_spec score 60); [split; [discriminate | lia]|].
  destruct (Z.ltb_spec score 80); [split; [discriminate | lia]|].
  split; [intros _; assumption | reflexivity].
Qed.

(** What the bands mean for a non-empty password: it is Weak exactly when
    it is shorter than 8 characters and of one character class; it is Strong
    only when it has at least 8 characters and at least three of the four
    classes, and all four when it is shorter than 12. *)
Theorem strength_bands (password : list N) :
  password <> [] ->
  (label (calculatePasswordStrength password) = js "Weak" <->
   (length password < 8)%nat /\ class_count password = 1%nat)
  /\ (label (calculatePasswordStrength password) = js "Strong" ->
      (8 <= length password)%nat
      /\ (3 <= class_count password)%nat
      /\ ((length password < 12)%nat -> class_count password = 4%nat)).
Proof.
  intros NE. rewrite (calculate_nonempty password NE). cbn [label].
  rewrite label_weak_iff, label_strong_iff.
  pose proof (some_class password NE) as S.
  unfold total, contribution, class_count. cbn [satisfies increment] in *.
  destruct (Nat.leb_spec 8 (length password)),
    (Nat.leb_spec 12 (length password)),
    (existsb lower password), (existsb upper password),
    (existsb digit password), (existsb symbol password);
    simpl in *; try discriminate S;
    (split; [split; [intros X; try lia | intros [X Y]; try lia; try discriminate Y]
            | intros X; try lia]).
Qed.

Lemma strength_bands_witness :
  js "abc" <> []
  /\ ((length (js "abc") < 8)%nat /\ class_count (js "abc") = 1%nat ->
      label (calculatePasswordStrength (js "abc")) = js "Weak").
Proof.
  split; [discriminate|].
  apply (proj1 (strength_bands (js "abc") ltac:(discriminate))).
Defined.

(** Typing more never lowers the score: the score of a password is at
    most the score of the password with any characters added before or
    after it. *)
Theorem strength_grows_with_input (before password after : list N) :
  (score (calculatePasswordStrength password)
   <= score (calculatePasswordStrength (before ++ password ++ after)))%Z.
Proof.
  destruct password as [|c p].
  - simpl. destruct (before ++ after) as [|d q] eqn:E; [reflexivity|].
    rewrite (calculate_nonempty (d :: q)) by discriminate. apply total_bounds.
  - set (pw := c :: p). set (full := before ++ pw ++ after).
    assert (NP : pw <> []) by discriminate.
    assert (NF : full <> []).
    { unfold full, pw. destruct before; discriminate. }
    rewrite (calculate_nonempty pw NP), (calculate_nonempty full NF). cbn [score].
    assert (Len : (length pw <= length full)%nat).
    { unfold full. rewrite !length_app. lia. }
    assert (Ex : forall q, existsb q pw = true -> existsb q full = true).
    { intros q H. unfold full. rewrite !existsb_app, H.
      now rewrite orb_true_r. }
    assert (M : forall cond, satisfies cond pw = true -> satisfies cond full = true).
    { intros [] H; cbn [satisfies] in *; try (now apply Ex);
        apply Nat.leb_le in H; apply Nat.leb_le; lia. }
    unfold total.
    pose proof (contribution_mono LengthAtLeast8 pw full (M _)).
    pose proof (contribution_mono LengthAtLeast12 pw full (M _)).
    pose proof (contribution_mono HasLowercase pw full (M _)).
    pose proof (contribution_mono HasUppercase pw full (M _)).
    pose proof (contribution_mono HasDigit pw full (M _)).
    pose proof (contribution_mono HasSymbol pw full (M _)).
    lia.
Qed.

(** In [PasswordInput] the input shows the text exactly when the toggle
    is labelled [Hide password] and its eye is open; after [n] toggles from
    the initial state this is the case exactly when [n] is odd. *)
Theorem password_toggle_label (props : PasswordInputRender.PasswordInputProps)
  (n : nat) :
  let st := Nat.iter n togglePasswordVisibility initial in
  let view := PasswordInputRender.render props st in
  PasswordInputRender.input_type (PasswordInputRender.view_input view)
    = (if Nat.odd n then Input.Text else Input.Password)
  /\ PasswordInputRender.toggle_ariaLabel (PasswordInputRender.view_toggle view)
     = (if Nat.odd n then js "Hide password" else js "Show password")
  /\ PasswordInputRender.toggle_isOpen (PasswordInputRender.view_toggle view)
     = Nat.odd n.
Proof.
  cbv zeta.
  cbn [PasswordInputRender.render PasswordInputRender.view_input
       PasswordInputRender.view_toggle PasswordInputRender.input_type
       PasswordInputRender.toggle_ariaLabel PasswordInputRender.toggle_isOpen].
  unfold renderedType. rewrite password_toggle_iter, <- Nat.negb_even.
  cbn [initial showPassword]. destruct (Nat.even n); repeat split.
Qed.

End StrengthBands.
